(** * pandas-tsdb: a shallow embedding of [indb_io.py] and [indb_pd.py]

    The module [indb_io] classifies the error texts returned by the
    InfluxDB backend ([_raise_error]); the module [indb_pd] converts a
    pandas DataFrame into an InfluxDB JSON write body ([df_to_indb]) and a
    query response back into a DataFrame ([response_to_df]).

    Conventions of the embedding:
    - Python (2) byte strings are [string]; [str.lower] lowers ASCII only.
    - A Python exception is an [Err] value of [result]; the exception class
      is the constructor of [exn].
    - A DataFrame cell is [option val]; [None] stands for both [None] and
      NaN, the two values [dropna] and [is_null] treat as missing. *)

From Stdlib Require Import String Ascii ZArith Lia Sorting.Sorted.
From Stdlib Require Import Numbers.DecimalString DecimalZ.
From stdpp Require Import base list strings gmap sorting.

Open Scope string_scope.

(* ------------------------------------------------------------------ *)
(** ** Python string helpers *)

Module PyStr.

(** [c.lower()] on one byte (Python 2 [str.lower], ASCII letters only). *)
Definition lower_char (c : ascii) : ascii :=
  let n := nat_of_ascii c in
  if (65 <=? n)%nat && (n <=? 90)%nat then ascii_of_nat (n + 32) else c.

(** [s.lower()] *)
Fixpoint lower (s : string) : string :=
  match s with
  | EmptyString => EmptyString
  | String c s' => String (lower_char c) (lower s')
  end.

(** [s.startswith(p)] *)
Definition startswith (s p : string) : bool := String.prefix p s.

(** [s.endswith(p)] *)
Definition endswith (s p : string) : bool :=
  (String.length p <=? String.length s)%nat &&
  String.eqb (String.substring (String.length s - String.length p) (String.length p) s) p.

(** [pat in s] *)
Fixpoint contains (pat s : string) : bool :=
  String.prefix pat s ||
  match s with
  | EmptyString => false
  | String _ s' => contains pat s'
  end.

(** [s[n:]] *)
Fixpoint drop (n : nat) (s : string) : string :=
  match n, s with
  | O, _ => s
  | S _, EmptyString => EmptyString
  | S n', String _ s' => drop n' s'
  end.

(** [s.split(sep)] for a one-character separator. *)
Fixpoint split (sep : ascii) (s : string) : list string :=
  match s with
  | EmptyString => [EmptyString]
  | String c s' =>
      let rest := split sep s' in
      if Ascii.eqb c sep then EmptyString :: rest
      else match rest with
           | h :: t => String c h :: t
           | [] => [String c EmptyString]
           end
  end.

(** [sep.join(l)] *)
Fixpoint join (sep : string) (l : list string) : string :=
  match l with
  | [] => EmptyString
  | [x] => x
  | x :: t => String.append x (String.append sep (join sep t))
  end.

(** ['{0}'.format(n)] for a Python int. *)
Definition of_Z (z : Z) : string := NilEmpty.string_of_int (Z.to_int z).
Definition of_nat (n : nat) : string := of_Z (Z.of_nat n).

(** Every character is below [A] (code 65): [lower] leaves the text alone. *)
Fixpoint low_chars (s : string) : Prop :=
  match s with
  | EmptyString => True
  | String c s' => (nat_of_ascii c < 65)%nat /\ low_chars s'
  end.

End PyStr.

(* ------------------------------------------------------------------ *)
(** ** Exceptions *)

(** The exception classes raised by the two modules; each carries the
    message it is constructed with. [InfluxDBEmpty] and
    [InfluxDBSyntaxError] are the classes of [indb_pd]; the others are the
    classes of [indb_io] and the builtins raised by numpy/pandas. *)
Inductive exn :=
| MeasurementNotFound (msg : string)
| FieldNotFound (msg : string)
| QueryError (msg : string)
| InfluxDBEmpty (msg : string)
| InfluxDBSyntaxError (msg : string)
| ValueError (msg : string)
| TypeError (msg : string)
| KeyError (msg : string)
| InvalidData (msg : string)
| InfluxDBAuthError (msg : string)
| AttributeError (msg : string)
| AssertionError (msg : string).

Inductive result (A : Type) :=
| Ok (a : A)
| Err (e : exn).
Arguments Ok {A} a.
Arguments Err {A} e.

Definition bind {A B} (r : result A) (k : A -> result B) : result B :=
  match r with Ok a => k a | Err e => Err e end.

#[global] Instance result_ret : MRet result := @Ok.
#[global] Instance result_bind : MBind result := fun A B k r => bind r k.
#[global] Instance result_fmap : FMap result :=
  fun A B f r => match r with Ok a => Ok (f a) | Err e => Err e end.

(** The exceptions of the time and factoring stages. *)
Definition stage_exn (e : exn) : Prop :=
  match e with ValueError _ | TypeError _ | KeyError _ => True | _ => False end.

(* ------------------------------------------------------------------ *)
(** ** [indb_io._raise_error] *)

Module Classify.
Import PyStr.

(** [_raise_error(error, chunk_idx=None, code=200)]: the exception it
    raises. *)
Definition raise_error (error : string) (chunk_idx : option nat) (code : Z) : exn :=
  let error :=
    match chunk_idx with
    | Some i =>
        String.append (of_Z code) (String.append ": "
          (String.append (of_nat i) (String.append ": " error)))
    | None => error
    end in
  let pe := lower error in
  if contains "measurement" pe && contains "not found" pe then MeasurementNotFound error
  else if contains "unknown" pe && contains "field" pe && contains "tag" pe then FieldNotFound error
  else QueryError error.

(** The class of a query error. *)
Inductive kind := KMeasurementNotFound | KFieldNotFound | KQueryError | KOther.

Definition kind_of (e : exn) : kind :=
  match e with
  | MeasurementNotFound _ => KMeasurementNotFound
  | FieldNotFound _ => KFieldNotFound
  | QueryError _ => KQueryError
  | _ => KOther
  end.

(** The decision on the lowered raw text. *)
Definition decide_kind (t : string) : kind :=
  if contains "measurement" t && contains "not found" t then KMeasurementNotFound
  else if contains "unknown" t && contains "field" t && contains "tag" t then KFieldNotFound
  else KQueryError.

End Classify.

(* ------------------------------------------------------------------ *)
(** ** Namespaces: [get_parts] and [filter_ns] *)

Module Ns.
Import PyStr.

(** [get_parts(ns)]: [parts[-ns_len + ii:]] is [skipn ii parts] for
    [ii < ns_len]. *)
Definition get_parts (ns : string) : list string :=
  match ns with
  | EmptyString => []
  | _ =>
      let parts := split "." ns in
      let ns_len := List.length parts in
      map (fun ii => join "." (skipn ii parts)) (seq 0 (ns_len - 1))
  end.

(** The loop of [filter_ns], with its two local variables. *)
Fixpoint filter_ns_loop (parts : list string) (sensor psensor prev_match : string) : string :=
  match parts with
  | [] => psensor
  | p :: parts' =>
      if startswith sensor p && (String.length prev_match <? String.length p)%nat
      then filter_ns_loop parts' sensor (drop (String.length p) psensor) p
      else filter_ns_loop parts' sensor psensor prev_match
  end.

(** [filter_ns(parts, sensor)] *)
Definition filter_ns (parts : list string) (sensor : string) : string :=
  filter_ns_loop parts sensor sensor "".

(** [a] is longer than [b]. *)
Definition longer (a b : string) : Prop := (String.length b < String.length a)%nat.

End Ns.

(* ------------------------------------------------------------------ *)
(** ** DataFrames *)

(** A scalar of a DataFrame cell: a Python int or a Python str. *)
Inductive val := VInt (z : Z) | VStr (s : string).

#[global] Instance val_eq_dec : EqDecision val.
Proof. solve_decision. Defined.

(** A cell; [None] is [None]/NaN. *)
Abbreviation cell := (option val).

(** An index label: a datetime ([IxTime t], nanoseconds since the epoch)
    or a plain integer such as a [RangeIndex] label. *)
Inductive ixval := IxTime (t : Z) | IxInt (z : Z).

#[global] Instance ixval_eq_dec : EqDecision ixval.
Proof. solve_decision. Defined.

(** A DataFrame with index labels of type [I]: its column labels, and its
    rows with their index label; each row has one cell per column, in
    column order. *)
Record frame (I : Type) := mkFrame { columns : list string; rows : list (I * list cell) }.
Arguments mkFrame {I} columns rows.
Arguments columns {I} f.
Arguments rows {I} f.

Module Frame.

Fixpoint col_pos (cols : list string) (c : string) : option nat :=
  match cols with
  | [] => None
  | c' :: cols' => if String.eqb c' c then Some 0%nat else S <$> col_pos cols' c
  end.

(** [c in df] *)
Definition has_col {I} (df : frame I) (c : string) : bool := existsb (String.eqb c) (columns df).

(** [df[c]] as the list of its cells (the first column of that label). *)
Definition column {I} (df : frame I) (c : string) : list cell :=
  match col_pos (columns df) c with
  | Some i => map (fun r => default None (snd r !! i)) (rows df)
  | None => []
  end.

Fixpoint mask {A} (m : list bool) (l : list A) : list A :=
  match m, l with
  | b :: m', x :: l' => if b then x :: mask m' l' else mask m' l'
  | _, _ => []
  end.

Definition keep_cols {I} (m : list bool) (df : frame I) : frame I :=
  mkFrame (mask m (columns df)) (map (fun r => (fst r, mask m (snd r))) (rows df)).

(** [df.drop(c, axis=1)] *)
Definition drop_col {I} (c : string) (df : frame I) : frame I :=
  keep_cols (map (fun c' => negb (String.eqb c c')) (columns df)) df.

(** [df.rename(columns=f)] *)
Definition rename {I} (f : string -> string) (df : frame I) : frame I :=
  mkFrame (map f (columns df)) (rows df).

Definition is_some_b (c : cell) : bool := match c with Some _ => true | None => false end.

(** [df.dropna(axis=1, how='all')] *)
Definition dropna_cols {I} (df : frame I) : frame I :=
  keep_cols (map (fun j => existsb (fun r => match snd r !! j with
                                             | Some (Some _) => true
                                             | _ => false end) (rows df))
                 (seq 0 (List.length (columns df)))) df.

(** [df.dropna(axis=0, how='all')] *)
Definition dropna_rows {I} (df : frame I) : frame I :=
  mkFrame (columns df) (filter (fun r => existsb is_some_b (snd r)) (rows df)).

(** [df[c] = cells]: overwrite the column, or append it. *)
Definition set_col {I} (c : string) (cells : list cell) (df : frame I) : frame I :=
  match col_pos (columns df) c with
  | Some i => mkFrame (columns df) (zip_with (fun r x => (fst r, <[i := x]> (snd r))) (rows df) cells)
  | None => mkFrame (app (columns df) [c]) (zip_with (fun r x => (fst r, app (snd r) [x])) (rows df) cells)
  end.

(** [row.iteritems()] *)
Definition items (cols : list string) (row : list cell) : list (string * cell) := zip cols row.

(** [row.dropna().iteritems()] *)
Definition nonnull_items (cols : list string) (row : list cell) : list (string * val) :=
  omap (fun sc => match snd sc with Some v => Some (fst sc, v) | None => None end) (items cols row).

(** Each row has one cell per column, as in any DataFrame. *)
Definition wf {I} (df : frame I) : Prop :=
  Forall (fun r => List.length (snd r) = List.length (columns df)) (rows df).

(** [len(pd.Series.unique(col))] *)
Definition nunique (col : list cell) : nat := List.length (remove_dups col).

End Frame.

(* ------------------------------------------------------------------ *)
(** ** Values *)

Module Py.

(** Python truthiness of a scalar. *)
Definition truthy (v : val) : bool :=
  match v with VInt z => negb (Z.eqb z 0) | VStr s => negb (String.eqb s "") end.

Definition truthy_opt (c : option cell) : bool :=
  match c with Some (Some v) => truthy v | _ => false end.

(** [is_null(val, zero_null)] *)
Definition is_null (c : cell) (zero_null : bool) : bool :=
  match c with
  | None => true
  | Some (VInt z) => zero_null && Z.eqb z 0
  | Some (VStr _) => false
  end.

(** [str(val)] *)
Definition str (c : cell) : string :=
  match c with
  | None => "None"
  | Some (VInt z) => PyStr.of_Z z
  | Some (VStr s) => s
  end.

(** [json_valid(val)]: ints and strs are JSON serializable as they are. *)
Definition json_valid (v : val) : val := v.

(** [{str(k): str(v) for k, v in d.iteritems()}] *)
Definition str_map (d : gmap string cell) : gmap string string := Py.str <$> d.

End Py.

(* ------------------------------------------------------------------ *)
(** ** [indb_pd.df_to_indb] *)

(** The keyword arguments of [df_to_indb]. [labels] is the caller's dict
    ([∅] when not given); [ns = ""] when not given; [inlabels = None] takes
    [default_inline_labels]; [ts = None] when not given. *)
Record options := mkOptions {
  o_labels : gmap string cell;
  o_retentionPolicy : option string;
  o_database : option string;
  o_ns : string;
  o_subset : list string;
  o_inlabels : option (list (string * string));
  o_ts : option val;
  o_zero_null : bool;
  o_precision : string;
  o_strtime : bool;
  o_force_precision : bool }.

(** The defaults of the keyword arguments. *)
Definition default_options : options :=
  mkOptions ∅ None None "" [] None None true "ms" false true.

(** One InfluxDB point of the write body. *)
Record point := mkPoint {
  p_name : string;
  p_fields : gmap string val;
  p_precision : option string;
  p_timestamp : option val;
  p_tags : option (gmap string string) }.

(** The write body ([InDBJson]). *)
Record batch := mkBatch {
  b_points : list point;
  b_precision : string;
  b_retentionPolicy : option string;
  b_database : option string;
  b_timestamp : option val;
  b_tags : option (gmap string string) }.

(** [default_inline_labels] *)
Definition default_inline_labels : list (string * string) :=
  [("_pk", "pk"); ("_loc", "loc"); ("_user_id", "user_id"); ("_session", "session")].

(** [special_labels] *)
Definition special_labels : list (string * string) := [("_time", "time")].

(** [to_precision.get(precision, precision)] *)
Definition to_precision (precision : string) : string :=
  if String.eqb precision "us" then "u"
  else if String.eqb precision "ns" then "n"
  else precision.

(** The length of the numpy time unit [np.timedelta64(1, precision)] in
    attoseconds; [None] for the units of no fixed length, [Y] and [M], and
    for a string that is no unit (units with a multiplier, such as
    ['10ms'], are left out). *)
Definition unit_as (precision : string) : option Z :=
  if String.eqb precision "as" then Some 1%Z
  else if String.eqb precision "fs" then Some 1000%Z
  else if String.eqb precision "ps" then Some 1000000%Z
  else if String.eqb precision "ns" then Some 1000000000%Z
  else if String.eqb precision "us" then Some 1000000000000%Z
  else if String.eqb precision "ms" then Some 1000000000000000%Z
  else if String.eqb precision "s" then Some 1000000000000000000%Z
  else if String.eqb precision "m" then Some (60 * 1000000000000000000)%Z
  else if String.eqb precision "h" then Some (3600 * 1000000000000000000)%Z
  else if String.eqb precision "D" then Some (86400 * 1000000000000000000)%Z
  else if String.eqb precision "W" then Some (604800 * 1000000000000000000)%Z
  else None.

(** [n] as a 64-bit two's complement integer. *)
Definition wrap64 (n : Z) : Z := ((n + 2 ^ 63) mod 2 ^ 64 - 2 ^ 63)%Z.

(** The integer nearest to [num / den] ([0 <= num], [0 < den]), ties to
    even. *)
Definition round_ne (num den : Z) : Z :=
  let m := (num / den)%Z in
  let r := (num mod den)%Z in
  if (den <? 2 * r)%Z || ((2 * r =? den)%Z && Z.odd m) then (m + 1)%Z else m.

(** The binary64 value nearest to [p / q] ([0 < q]), ties to even, as
    [m * 2 ^ e] with [m] of 53 bits. *)
Definition scaled (a q e : Z) : Z * Z :=
  if (0 <=? e)%Z then (a, q * 2 ^ e)%Z else (a * 2 ^ (- e), q)%Z.

Definition to_double (p q : Z) : Z * Z :=
  if (p =? 0)%Z then (0%Z, 0%Z) else
  let a := Z.abs p in
  let e0 := (Z.log2 a - Z.log2 q - 53)%Z in
  let e := if (2 ^ 53 <=? fst (scaled a q e0) / snd (scaled a q e0))%Z then (e0 + 1)%Z else e0 in
  ((Z.sgn p * round_ne (fst (scaled a q e)) (snd (scaled a q e)))%Z, e).

(** [int(x)] of the binary64 value [x = m * 2 ^ e]: truncation towards
    zero. *)
Definition trunc_double (x : Z * Z) : Z :=
  let '(m, e) := x in
  if (0 <=? e)%Z then (m * 2 ^ e)%Z else Z.quot m (2 ^ (- e)).

(** [int(float(a) / float(d))] for [0 < d]. *)
Definition div_trunc (a d : Z) : Z :=
  let '(m, e) := to_double a 1 in
  trunc_double (if (0 <=? e)%Z then to_double (m * 2 ^ e) d else to_double m (d * 2 ^ (- e))).

(** [int((t - epoch) / np.timedelta64(1, precision))] for an instant [t]
    counted in ticks of [tick] attoseconds and a unit of [u] attoseconds:
    numpy casts both operands to the finer of the two units (in 64 bits),
    divides them as doubles, and [int] truncates the quotient. *)
Definition since_epoch (tick u t : Z) : Z :=
  let c := Z.min tick u in
  div_trunc (wrap64 (t * (tick / c))) (u / c).

Fixpoint assoc (l : list (string * string)) (k : string) : option string :=
  match l with
  | [] => None
  | (k', v) :: l' => if String.eqb k k' then Some v else assoc l' k
  end.

(** [_fix_special(sensor)] *)
Fixpoint find_key (l : list (string * string)) (v : string) : option string :=
  match l with
  | [] => None
  | (k, v') :: l' => if String.eqb v v' then Some k else find_key l' v
  end.

Definition fix_special (inlabels : list (string * string)) (sensor : string) : string :=
  match find_key inlabels sensor with
  | Some label => label
  | None => match find_key special_labels sensor with
            | Some label => label
            | None => sensor
            end
  end.

(** [ns] after its normalisation: [''] when not given, with a trailing dot. *)
Definition norm_ns (ns : string) : string :=
  if String.eqb ns "" then ""
  else if PyStr.endswith ns "." then ns else String.append ns ".".

(** [sensor.startswith('_') and sensor not in subset] *)
Definition is_private (subset : list string) (sensor : string) : bool :=
  PyStr.startswith sensor "_" && negb (existsb (String.eqb sensor) subset).

Section Encoder.

(** [np.datetime64(text)] in nanoseconds, [None] when numpy cannot parse
    the text; and [str(np.datetime64(t, 'ns'))]. Both are numpy's. *)
Variable parse_dt : string -> option Z.
Variable fmt_ns : Z -> string.

(** [np.datetime64(v)]: a NaT for a missing cell. *)
Definition dt64 (c : cell) : result (option Z) :=
  match c with
  | None => Ok None
  | Some (VStr "NaT") => Ok None
  | Some (VStr s) => match parse_dt s with
                     | Some t => Ok (Some t)
                     | None => Err (ValueError "Error parsing datetime string")
                     end
  | Some (VInt _) => Err (ValueError "Converting an integer to a NumPy datetime requires a specified unit")
  end.

(** [np.datetime64(v, 'us')] *)
Definition dt64_us (c : cell) : result (option Z) :=
  match c with
  | Some (VInt z) => Ok (Some (z * 1000)%Z)
  | _ => dt64 c
  end.

(** [np.array([np.datetime64(idx0) for idx0 in idx])], [None] when it raises. *)
Definition index_ts (idx : list ixval) : option (list (option Z)) :=
  mapM (fun i => match i with IxTime t => Some (Some t) | IxInt _ => None end) idx.

(** The first half of [_get_ts(idx, sensors)]: the instants of the rows,
    each in ticks of [k] nanoseconds, or [None] for no timestamp. An
    instant of the index goes through [np.datetime64(idx0)], which keeps
    microseconds; the [_time] column becomes a Series of [datetime64[ns]]. *)
Definition ts_source (labels : gmap string cell) (df : frame ixval)
    : result (option (Z * list (option Z))) :=
  match index_ts (map fst (rows df)) with
  | Some ts => Ok (Some (1000%Z, map (option_map (fun t => t / 1000)%Z) ts))
  | None =>
      if Frame.has_col df "_time" then
        match mapM dt64 (Frame.column df "_time") with
        | Ok ts => Ok (Some (1%Z, ts))
        | Err _ => (fun ts => Some (1%Z, ts)) <$> mapM dt64_us (Frame.column df "_time")
        end
      else
        match labels !! "time" with
        | Some (Some v) =>
            (* a scalar datetime64, or the falsy value itself: iterating
               over it raises *)
            _ ← (if Py.truthy v then dt64 (Some v) else Ok None);
            Err (TypeError "iteration over a 0-d array")
        | _ => Ok None
        end
  end.

(** The second half of [_get_ts]: the text of each instant, or its count
    of [precision] units since the epoch; a NaT there is a NaN and [int]
    raises. [np.datetime64(t, 'ns')] of a [Timestamp] or of a
    [datetime64[us]] keeps microseconds. *)
Definition ts_values (precision : string) (strtime : bool) (src : option (Z * list (option Z)))
    : result (option (list val)) :=
  match src with
  | None => Ok None
  | Some (k, ts) =>
      if strtime then
        Ok (Some (map (fun t => VStr (match t with
                                      | Some t => fmt_ns (((t * k) / 1000) * 1000)%Z
                                      | None => "NaT"
                                      end)) ts))
      else
        match unit_as precision with
        | None =>
            Err (TypeError (if String.eqb precision "Y" || String.eqb precision "M"
                            then "Cannot get a common metadata divisor for Numpy datetime metadata"
                            else "Invalid datetime unit in metadata string"))
        | Some u =>
            Some <$> mapM (fun t => match t with
                                    | Some t => Ok (VInt (since_epoch (k * 1000000000) u t))
                                    | None => Err (ValueError "cannot convert float NaN to integer")
                                    end) ts
        end
  end.

(** [_get_ts(idx, sensors)]: the timestamps of the rows, [None] for no
    timestamp. *)
Definition get_ts (labels : gmap string cell) (precision : string) (strtime : bool)
    (df : frame ixval) : result (option (list val)) :=
  src ← ts_source labels df;
  ts_values precision strtime src.

(** [df[label][0]]: [s[0]] looks up the label [0] on an integer index
    (a [KeyError] when no row has it) and is positional on a datetime index. *)
Definition first_at (df : frame ixval) (col : list cell) : result cell :=
  if forallb (fun r => match fst r with IxInt _ => true | IxTime _ => false end) (rows df) then
    match list_find (fun r => fst r = IxInt 0) (rows df) with
    | Some (k, _) => Ok (default None (col !! k))
    | None => Err (KeyError "0")
    end
  else
    match col with
    | x :: _ => Ok x
    | [] => Err (KeyError "0")
    end.

(** The loop that factors out the in-dataframe labels with one value:
    the frame left (or the exception raised) and the contents of [labels]. *)
Fixpoint factor_tags (inlabels : list (string * string)) (labels : gmap string cell)
    (df : frame ixval) : result (frame ixval) * gmap string cell :=
  match inlabels with
  | [] => (Ok df, labels)
  | (label, v) :: inl' =>
      if Frame.has_col df label && negb (Py.truthy_opt (labels !! label)) then
        let col := Frame.column df label in
        if (Frame.nunique col =? 1)%nat
        then match first_at df col with
             | Ok x => factor_tags inl' (<[v := x]> labels) (Frame.drop_col label df)
             | Err e => (Err e, labels)
             end
        else factor_tags inl' labels df
      else factor_tags inl' labels df
  end.

(** The first loop over a row: its tags that differ from [labels]. *)
Definition row_tags (inlabels : list (string * string)) (labels : gmap string cell)
    (subset : list string) (sensors : list (string * val)) : gmap string cell :=
  fold_left (fun mlabels sv =>
      let '(sensor, v) := sv in
      if is_private subset sensor then
        match assoc inlabels sensor with
        | None => mlabels
        | Some tag =>
            if bool_decide (labels !! sensor = Some (Some v)) then mlabels
            else <[tag := Some v]> mlabels
        end
      else mlabels) sensors ∅.

(** The body of the second loop over a row: the point of one cell.
    The source calls [is_null(val, zero_null=True)] with the literal
    [True]. *)
Definition field_point (o : options) (ns : string) (ts : option val)
    (mlabels : gmap string cell) (sv : string * val) : option point :=
  let '(sensor, v) := sv in
  if String.eqb sensor "time" then None
  else if Py.is_null (Some v) true then None
  else if is_private (o_subset o) sensor then None
  else Some (mkPoint (String.append ns sensor) {[ "value" := Py.json_valid v ]}
               (if o_force_precision o then Some (to_precision (o_precision o)) else None)
               ts
               (if bool_decide (mlabels = ∅) then None else Some (Py.str_map mlabels))).

(** The points of one row. *)
Definition row_points (o : options) (inlabels : list (string * string))
    (labels : gmap string cell) (ns : string) (cols : list string) (row : list cell) : list point :=
  let sensors := Frame.nonnull_items cols row in
  let mlabels := row_tags inlabels labels (o_subset o) sensors in
  let ts := snd <$> List.find (fun sv => String.eqb (fst sv) "time") sensors in
  omap (field_point o ns ts mlabels) sensors.

(** [if retentionPolicy: ...] *)
Definition truthy_str (x : option string) : option string :=
  match x with Some s => if String.eqb s "" then None else Some s | None => None end.

(** [inlabels] after [if inlabels is None: inlabels = default_inline_labels]. *)
Definition inlabels_of (o : options) : list (string * string) :=
  default default_inline_labels (o_inlabels o).

(** The dict bound to [labels] after [if not labels: labels = {}] and
    [if ts: labels['time'] = ts]; [labels = {}] binds an empty dict either
    way, so its contents are those of [o_labels o]. *)
Definition init_labels (o : options) : gmap string cell :=
  match o_ts o with
  | Some t => if Py.truthy t then <["time" := Some t]> (o_labels o) else o_labels o
  | None => o_labels o
  end.

(** The renaming of the special and in-dataframe labels, the namespace
    stripping and the [dropna] calls. *)
Definition prepare (o : options) (df : frame ixval) : frame ixval :=
  let df := Frame.rename (fix_special (inlabels_of o)) df in
  let parts := Ns.get_parts (norm_ns (o_ns o)) in
  let df := if bool_decide (parts = []) then df else Frame.rename (Ns.filter_ns parts) df in
  Frame.dropna_rows (Frame.dropna_cols df).

(** The name a column of the caller's table has after the two renaming
    passes: [_fix_special], then [_fix_ns]. *)
Definition column_name (o : options) (c0 : string) : string :=
  let c := fix_special (inlabels_of o) c0 in
  if bool_decide (Ns.get_parts (norm_ns (o_ns o)) = []) then c
  else Ns.filter_ns (Ns.get_parts (norm_ns (o_ns o))) c.

(** [df['time'] = _get_ts(df.index, df)], the factoring of the shared
    in-dataframe labels and of the shared timestamp: the batch timestamp
    and the frame left, with the final contents of [labels]. *)
Definition factor (o : options) (labels : gmap string cell) (df : frame ixval)
    : result (option val * frame ixval) * gmap string cell :=
  match get_ts labels (o_precision o) (o_strtime o) df with
  | Err e => (Err e, labels)
  | Ok tcol =>
      let df := Frame.set_col "time"
                  (match tcol with
                   | Some ts => map Some ts
                   | None => map (fun _ => None) (rows df)
                   end) df in
      match factor_tags (inlabels_of o) labels df with
      | (Err e, labels) => (Err e, labels)
      | (Ok df, labels) =>
          if negb (Frame.has_col df "time") then (Err (KeyError "time"), labels) else
          let tcol := Frame.column df "time" in
          if (Frame.nunique tcol =? 1)%nat then
            match first_at df tcol with
            | Err e => (Err e, labels)
            | Ok ts =>
                (Ok ((if Py.is_null ts false then None else ts), Frame.drop_col "time" df), labels)
            end
          else (Ok (None, df), labels)
      end
  end.

(** The loop [for _, sensors in df.iterrows()]: the points of all rows. *)
Definition emit (o : options) (labels : gmap string cell) (df : frame ixval) : list point :=
  flat_map (fun r => row_points o (inlabels_of o) labels (norm_ns (o_ns o)) (columns df) (snd r))
           (rows df).

(** [df_to_indb(df, **o)]: the write body or the exception raised, paired
    with the final contents of the dict bound to [labels] in the call. *)
Definition df_to_indb (o : options) (df : frame ixval) : result batch * gmap string cell :=
  if bool_decide (rows df = []) then (Err (InfluxDBEmpty "Empty sensor data"), o_labels o) else
  let labels := init_labels o in
  let df := prepare o df in
  if bool_decide (rows df = []) then (Err (InfluxDBEmpty "Empty sensor data"), labels) else
  match factor o labels df with
  | (Err e, labels) => (Err e, labels)
  | (Ok (timestamp, df), labels) =>
      let tags := if bool_decide (labels = ∅) then None else Some (Py.str_map labels) in
      let points := emit o labels df in
      if bool_decide (points = []) then (Err (InfluxDBEmpty "Empty sensor data"), labels)
      else (Ok (mkBatch points (to_precision (o_precision o))
                  (truthy_str (o_retentionPolicy o)) (truthy_str (o_database o))
                  timestamp tags), labels)
  end.

(** The caller's [labels] dict after the call: the call binds [labels] to
    the caller's dict itself when that dict is non-empty. *)
Definition caller_labels_after (o : options) (df : frame ixval) : gmap string cell :=
  if bool_decide (o_labels o = ∅) then o_labels o else snd (df_to_indb o df).

End Encoder.


(* ------------------------------------------------------------------ *)
(** ** [indb_pd.response_to_df] *)

(** One series of a query result: [name], [tags], [columns], [values]
    (a missing key is [None] or the empty list, which the code treats
    alike). *)
Record series := mkSeries {
  s_name : option string;
  s_tags : list (string * string);
  s_columns : list string;
  s_values : list (list cell) }.

(** One chunk of the [results] list: [error] and [series]. *)
Record chunk := mkChunk { c_error : option string; c_series : list series }.

(** The argument [data] of [response_to_df]: [None], a JSON text, a dict
    (with its [results] entry, if any) or a list of chunks. *)
Inductive response :=
| RNone
| RText (s : string)
| RDict (results : option (list chunk))
| RList (chunks : list chunk).

(** The index of a decoded frame: an instant ([None] is NaT) taken from the
    [time] column, or the position of a default [RangeIndex]. *)
Inductive dix := DTime (t : option Z) | DPos (n : nat).

#[global] Instance dix_eq_dec : EqDecision dix.
Proof. solve_decision. Defined.

(** [pd.DataFrame()] *)
Definition empty_frame : frame dix := mkFrame [] [].

(** Decoder options: [all_ns] is [[ns] + [ns1, ns2, ...]] ([""] for a
    namespace not given), and [inlabels]. *)
Record doptions := mkDOptions { d_all_ns : list string; d_inlabels : option (list (string * string)) }.

Section Decoder.

Variable parse_dt : string -> option Z.
(** [json.loads(text)], [None] when it raises. A text whose JSON is a
    number or a boolean, on which the chunk loop raises [TypeError], is
    left out. *)
Variable json_loads : string -> option response.

(** [_get_col(col)] *)
Fixpoint get_col_loop (all_ns : list string) (col ncol prev_match : string) : string :=
  match all_ns with
  | [] => ncol
  | ns :: all_ns' =>
      if String.eqb ns "" then get_col_loop all_ns' col ncol prev_match
      else if (String.length prev_match <? String.length ns)%nat && PyStr.startswith col ns
      then get_col_loop all_ns' col (PyStr.drop (String.length ns) col) ns
      else get_col_loop all_ns' col ncol prev_match
  end.

Definition get_col (all_ns : list string) (col : string) : string := get_col_loop all_ns col col "".

(** [_name_of(col)] *)
Definition name_of (all_ns : list string) (name : option string) (col : string) : string :=
  match name with
  | Some n =>
      if negb (String.eqb col "time") && negb (String.eqb n "") then
        if String.eqb col "value" then n
        else String.append n (String.append "." (get_col all_ns col))
      else col
  | None => col
  end.

(** [pd.DataFrame(values, columns=columns)] for a list of rows: pandas
    makes every row as wide as the widest one, padding with NaN, and
    raises when that width is not the number of columns. *)
Definition build_rows (ncols : nat) (values : list (list cell)) : result (list (list cell)) :=
  let width := foldr Nat.max 0%nat (map List.length values) in
  if (width =? ncols)%nat
  then Ok (map (fun vals => app vals (repeat None (width - List.length vals))) values)
  else Err (AssertionError (String.append (PyStr.of_nat ncols)
              (String.append " columns passed, passed data had "
                 (String.append (PyStr.of_nat width) " columns")))).

(** [df['time'] = df['time'].apply(np.datetime64); df.set_index('time')] *)
Definition set_time_index (df : frame nat) : result (frame dix) :=
  match Frame.col_pos (columns df) "time" with
  | None => Ok (mkFrame (columns df) (map (fun r => (DPos (fst r), snd r)) (rows df)))
  | Some i =>
      rs ← mapM (fun r => t ← dt64 parse_dt (default None (snd r !! i));
                          Ok (DTime t, Frame.mask (map (fun j => negb (j =? i)%nat)
                                                       (seq 0 (List.length (snd r)))) (snd r)))
                (rows df);
      Ok (mkFrame (Frame.mask (map (fun j => negb (j =? i)%nat) (seq 0 (List.length (columns df))))
                              (columns df)) rs)
  end.

(** The loop that brings back the in-dataframe labels. *)
Fixpoint add_labels (inlabels : list (string * string)) (lbls : list (string * string))
    (df : frame dix) : frame dix :=
  match inlabels with
  | [] => df
  | (label, v) :: inl' =>
      match assoc lbls v with
      | Some x => add_labels inl' lbls (Frame.set_col label (map (fun _ => Some (VStr x)) (rows df)) df)
      | None => add_labels inl' lbls df
      end
  end.

(** The frame of one series with its partition key, [None] when the
    series is skipped. *)
Definition decode_series (o : doptions) (row : series) : result (option (string * frame dix)) :=
  let inlabels := default default_inline_labels (d_inlabels o) in
  let lbls := s_tags row in
  if bool_decide (s_columns row = []) || bool_decide (s_values row = []) then Ok None else
  let columns := map (name_of (d_all_ns o) (s_name row)) (s_columns row) in
  vals ← build_rows (List.length columns) (s_values row);
  df ← set_time_index (mkFrame columns (imap pair vals));
  let df := add_labels inlabels lbls df in
  let pk := match assoc lbls "pk" with
            | Some k => if String.eqb k "" then "unknown" else k
            | None => "unknown"
            end in
  Ok (Some (pk, df)).

(** [sdfs[pk].append(df)] on an association list in insertion order. *)
Fixpoint sdfs_add (pk : string) (df : frame dix) (sdfs : list (string * list (frame dix)))
    : list (string * list (frame dix)) :=
  match sdfs with
  | [] => [(pk, [df])]
  | (k, dfs) :: sdfs' =>
      if String.eqb k pk then (k, app dfs [df]) :: sdfs' else (k, dfs) :: sdfs_add pk df sdfs'
  end.

Fixpoint decode_rows (o : doptions) (rs : list series) (sdfs : list (string * list (frame dix)))
    : result (list (string * list (frame dix))) :=
  match rs with
  | [] => Ok sdfs
  | row :: rs' =>
      r ← decode_series o row;
      match r with
      | None => decode_rows o rs' sdfs
      | Some (pk, df) => decode_rows o rs' (sdfs_add pk df sdfs)
      end
  end.

(** The loop over the chunks, with [chunk_idx]. *)
Fixpoint decode_chunks (o : doptions) (chunk_idx : nat) (chunks : list chunk)
    (sdfs : list (string * list (frame dix))) : result (list (string * list (frame dix))) :=
  match chunks with
  | [] => Ok sdfs
  | ch :: chunks' =>
      match c_error ch with
      | Some error =>
          if negb (String.eqb error "") then
            Err (InfluxDBSyntaxError (String.append (PyStr.of_nat chunk_idx)
                                        (String.append ": " error)))
          else sdfs' ← decode_rows o (c_series ch) sdfs; decode_chunks o (S chunk_idx) chunks' sdfs'
      | None => sdfs' ← decode_rows o (c_series ch) sdfs; decode_chunks o (S chunk_idx) chunks' sdfs'
      end
  end.

(** [pd.concat(dfs)]: the rows of all frames, each re-indexed on the union
    of the columns, missing cells NaN. *)
Definition get_cell (cols : list string) (row : list cell) (c : string) : cell :=
  match Frame.col_pos cols c with Some i => default None (row !! i) | None => None end.

Definition union_cols (acc cs : list string) : list string :=
  fold_left (fun acc c => if existsb (String.eqb c) acc then acc else app acc [c]) cs acc.

Definition concat (dfs : list (frame dix)) : frame dix :=
  let cols := fold_left (fun acc df => union_cols acc (columns df)) dfs [] in
  mkFrame cols (flat_map (fun df => map (fun r => (fst r, map (get_cell (columns df) (snd r)) cols))
                                        (rows df)) dfs).

(** The order of [sort_index]: positions, then instants, NaT last. *)
Definition dix_leb (a b : dix) : bool :=
  match a, b with
  | DPos n, DPos m => (n <=? m)%nat
  | DPos _, DTime _ => true
  | DTime _, DPos _ => false
  | DTime _, DTime None => true
  | DTime None, DTime (Some _) => false
  | DTime (Some x), DTime (Some y) => Z.leb x y
  end.

Fixpoint insert_row (r : dix * list cell) (l : list (dix * list cell)) : list (dix * list cell) :=
  match l with
  | [] => [r]
  | r' :: l' => if dix_leb (fst r) (fst r') then r :: l else r' :: insert_row r l'
  end.

(** [df.sort_index()]: NaT is missing and goes last; an index holding both
    positions and instants raises, as a [Timestamp] and an [int] do not
    compare. Rows of equal index keep their order here; numpy's quicksort
    may reorder them on long indexes. *)
Definition sort_index (df : frame dix) : result (frame dix) :=
  if existsb (fun r => match fst r with DPos _ => true | DTime _ => false end) (rows df) &&
     existsb (fun r => match fst r with DTime (Some _) => true | _ => false end) (rows df)
  then Err (TypeError "Cannot compare type 'Timestamp' with type 'int'")
  else Ok (mkFrame (columns df) (fold_right insert_row [] (rows df))).

(** [response_to_df(data, ns, inlabels, **kwargs)] *)
Definition response_to_df (o : doptions) (data : response) : result (frame dix) :=
  chunks ← match data with
           | RNone => Ok None
           | RText s =>
               if String.eqb s "" then Ok None else
               match json_loads s with
               | Some (RDict r) => Ok (Some (default [] r))
               | Some (RList l) => Ok (Some l)
               | Some (RText t) =>
                   (* the loop iterates the characters of a JSON string *)
                   if String.eqb t "" then Ok (Some [])
                   else Err (AttributeError "'unicode' object has no attribute 'get'")
               | Some RNone => Err (TypeError "'NoneType' object is not iterable")
               | None => Err (ValueError "No JSON object could be decoded")
               end
           | RDict r => Ok (Some (default [] r))
           | RList l => Ok (Some l)
           end;
  match chunks with
  | None => Ok empty_frame
  | Some chunks =>
      sdfs ← decode_chunks o 0 chunks [];
      if bool_decide (sdfs = []) then Ok empty_frame else
      let dfs := map (fun ses => concat (snd ses)) (filter (fun ses => bool_decide (snd ses <> [])) sdfs) in
      if bool_decide (dfs = []) then Ok empty_frame
      else sort_index (concat dfs)
  end.

End Decoder.

(* ------------------------------------------------------------------ *)
(** ** The query response of a write body *)

(** What a query of the points of a write body returns, in the shape
    [response_to_df] reads (as with [GROUP BY *], the tags of a series are
    in its [tags]): one chunk whose series each hold one point, named by
    the point, with the point's tags over the batch's, the columns [time]
    and the point's field keys, and the one row of the point's time and
    field values. [render_time] is the server's rendering of a stored time;
    a point without a timestamp of its own has the batch's. This is the
    "equivalent query-response shape" of a batch the spec speaks of; it is
    no code of the repository. *)
Section RoundTrip.

Variable render_time : option val -> string.





End RoundTrip.



(* ------------------------------------------------------------------ *)
(** ** [indb_io]: authentication, requests and error responses *)

(** A value of a parameter dict ([auth], [params]): [None], a str or a
    bool. *)
Inductive pval := PNone | PStr (s : string) | PBool (b : bool).

#[global] Instance pval_eq_dec : EqDecision pval.
Proof. solve_decision. Defined.

Module Io.
Import PyStr.

(** Python truthiness of a parameter value. *)
Definition pv_truthy (x : pval) : bool :=
  match x with PNone => false | PStr s => negb (String.eqb s "") | PBool b => b end.

(** [d.get(k)] is truthy. *)
Definition get_truthy (d : gmap string pval) (k : string) : bool :=
  match d !! k with Some x => pv_truthy x | None => false end.

(** Python truthiness of a str argument that may be [None]. *)
Definition opt_truthy (x : option string) : bool :=
  match x with Some s => negb (String.eqb s "") | None => false end.

Definition pv_of (x : option string) : pval :=
  match x with Some s => PStr s | None => PNone end.

(** ['{url}:{port}/query'.format(url=url, port=port)] *)
Definition url_at (url : string) (port : Z) (path : string) : string :=
  String.append url (String.append ":" (String.append (of_Z port) path)).

(** [get_auth_indb(username, password, url, qurl, wurl, port)]: the
    [params] dict, or the exception raised. *)
Definition get_auth_indb (username password url qurl wurl : option string) (port : Z)
    : result (gmap string pval) :=
  let '(qurl, wurl) :=
    match url with
    | Some u =>
        if opt_truthy url then
          ((if opt_truthy qurl then qurl else Some (url_at u port "/query")),
           (if opt_truthy wurl then wurl else Some (url_at u port "/write")))
        else (qurl, wurl)
    | None => (qurl, wurl)
    end in
  let qurl := if opt_truthy qurl then qurl else Some "http://localhost:8086/query" in
  let wurl := if opt_truthy wurl then wurl else Some "http://localhost:8086/write" in
  let params : gmap string pval :=
    <["u" := pv_of username]> (<["p" := pv_of password]>
      (<["qurl" := pv_of qurl]> {[ "wurl" := pv_of wurl ]})) in
  if negb (get_truthy params "u") || negb (get_truthy params "p")
  then Err (InfluxDBAuthError "Authentication parameters not specified")
  else Ok params.

(** The JSON body of a response, as far as the module reads it: its
    [error], [results] and [result] entries ([None] when absent). *)
Record http_json := mkJson {
  j_error : option string;
  j_results : option (list chunk);
  j_result : option string }.

(** A [requests] response: [status_code], [reason], [content], and
    [response.json()] ([None] when it raises). *)
Record http_response := mkResponse {
  status_code : Z;
  reason : string;
  content : string;
  json : option http_json }.

(** The loop of [_raise_response_error] over [response.get('results', [])]:
    the last [error] and [chunk_idx] bound. *)
Fixpoint response_error_loop (i : nat) (chunks : list chunk) (error : option string)
    (chunk_idx : option nat) : option string * option nat :=
  match chunks with
  | [] => (error, chunk_idx)
  | ch :: chunks' =>
      if opt_truthy (c_error ch) then (c_error ch, Some i)
      else response_error_loop (S i) chunks' (c_error ch) (Some i)
  end.

(** [str(x)] of a str or [None]. *)
Definition str_opt (x : option string) : string :=
  match x with Some s => s | None => "None" end.

(** [_raise_response_error(response)]: the exception it raises.
    [None.lower()] raises [AttributeError]. *)
Definition raise_response_error (r : http_response) : exn :=
  let '(error, chunk_idx) :=
    match json r with
    | None => (Some (reason r), None)
    | Some j => response_error_loop 0 (default [] (j_results j)) (j_error j) None
    end in
  match chunk_idx, error with
  | Some i, _ => Classify.raise_error (str_opt error) (Some i) (status_code r)
  | None, Some e => Classify.raise_error e None (status_code r)
  | None, None => AttributeError "'NoneType' object has no attribute 'lower'"
  end.

(** The loop of [InfluxDBIOError.__init__] over [results]. *)
Fixpoint io_error_loop (cnt : nat) (results : list chunk) (error : option string) : option string :=
  match results with
  | [] => error
  | res :: results' =>
      if opt_truthy (c_error res)
      then Some (String.append (str_opt (c_error res))
                   (if (cnt =? 0)%nat then "" else String.append " query: " (of_nat cnt)))
      else io_error_loop (S cnt) results' (c_error res)
  end.

(** [InfluxDBIOError(response)]: its message and its [error] attribute. *)
Definition io_error (r : http_response) : string * option string :=
  let error :=
    match json r with
    | None => Some (reason r)
    | Some j =>
        if opt_truthy (j_error j) then j_error j
        else io_error_loop 0 (default [] (j_results j)) (j_error j)
    end in
  (String.append (of_Z (status_code r)) (String.append ": " (str_opt error)), error).

(** The ASCII characters [unicode.strip()] removes: tab to carriage
    return, the separators 28 to 31, and space. *)
Definition is_py_space (c : ascii) : bool :=
  let n := Ascii.nat_of_ascii c in (
  ((9 <=? n) && (n <=? 13)) || ((28 <=? n) && (n <=? 32)))%nat.

Fixpoint lstrip (s : string) : string :=
  match s with
  | EmptyString => EmptyString
  | String c s' => if is_py_space c then lstrip s' else s
  end.

(** [s.strip()] *)
Definition strip (s : string) : string := String.rev (lstrip (String.rev (lstrip s))).

(** The [json] argument of [requests.post]: the write body, or any other
    object [record_indb] passes through (named by its repr). *)
Inductive payload := PBatch (b : batch) | PRaw (repr : string).

(** The arguments of [requests.post(url, json=js, data=data, params=auth,
    headers=headers)]. *)
Record post_request := mkPost {
  pr_url : pval;
  pr_json : option payload;
  pr_data : option string;
  pr_params : gmap string pval;
  pr_headers : list (string * string) }.

(** What [push_indb] returns: [response.json()['result']] or the response. *)
Inductive push_out := PushResult (r : string) | PushResponse (r : http_response).

(** What [query_indb] returns: the response, the [results] list, or the
    list of JSON objects of a chunked response. *)
Inductive query_out :=
| QResponse (r : http_response)
| QResults (cs : list chunk)
| QObjects (os : list http_json).

Section Requests.

(** [requests.post] and [requests.get]: the response, or the exception
    they raise (a connection error, an invalid URL, a [json] payload that
    does not serialise); the gzip bytes of a text; and
    [json.JSONDecoder().raw_decode(s)] ([None] when it raises). *)
Variable http_post : post_request -> result http_response.
Variable http_get : pval -> gmap string pval -> result http_response.
Variable gzip : string -> string.
Variable raw_decode : string -> option (http_json * nat).

(** The request [push_indb(auth, data, compress)] sends. [data] is set to
    [None] before it is serialised, so [json.dumps(data)] is ["null"]. *)
Definition push_request (auth : gmap string pval) (data : payload) (compress : bool)
    : result post_request :=
  let js := if compress then None else Some data in
  let body := if compress then Some (gzip "null") else None in
  let headers := if compress then [("Content-Type", "application/gzip")] else [] in
  let auth := delete "qurl" auth in
  match auth !! "wurl" with
  | None => Err (KeyError "wurl")
  | Some url => Ok (mkPost url js body (delete "wurl" auth) headers)
  end.

(** [push_indb(auth, data, compress, raise_error)] *)
Definition push_indb (auth : gmap string pval) (data : payload) (compress raise_error : bool)
    : result push_out :=
  req ← push_request auth data compress;
  response ← http_post req;
  if negb raise_error then
    Ok (match json response with
        | Some j => match j_result j with Some x => PushResult x | None => PushResponse response end
        | None => PushResponse response
        end)
  else if negb (Z.eqb (status_code response) 200) then Err (raise_response_error response)
  else if negb (String.eqb (content response) "") then
    match json response with
    | None => Err (ValueError "No JSON object could be decoded")
    | Some j => match j_result j with
                | Some x => Ok (PushResult x)
                | None => Err (KeyError "result")
                end
    end
  else Ok (PushResponse response).

(** The generator [loads(s)] of [query_indb], run with [fuel] steps; each
    step shortens [s], so [String.length s + 1] steps are enough. *)
Fixpoint loads_loop (fuel : nat) (s : string) : result (list http_json) :=
  match fuel with
  | O => Ok []
  | S fuel' =>
      if String.eqb s "" then Ok [] else
      let s := strip s in
      match raw_decode s with
      | None => Err (ValueError "No JSON object could be decoded")
      | Some (obj, pos) =>
          if (pos =? 0)%nat then Err (ValueError "no JSON object found at 0")
          else objs ← loads_loop fuel' (drop pos s); Ok (obj :: objs)
      end
  end.

(** The URL and the parameters of the [requests.get] call of [query_indb]. *)
Definition query_request (auth : gmap string pval) (query : string) (database : option string)
    (chunked : bool) : result (pval * gmap string pval) :=
  let params := <["q" := PStr query]> auth in
  let params := if opt_truthy database then <["db" := pv_of database]> params else params in
  let params := if chunked then <["chunked" := PBool true]> params else params in
  let params := delete "wurl" params in
  match params !! "qurl" with
  | None => Err (KeyError "qurl")
  | Some url => Ok (url, delete "qurl" params)
  end.

(** The loop [for chunk_idx, chunk in enumerate(data)] of [query_indb]. *)
Fixpoint query_errors (i : nat) (data : list chunk) : option exn :=
  match data with
  | [] => None
  | ch :: data' =>
      match c_error ch with
      | Some e => if opt_truthy (Some e) then Some (Classify.raise_error e (Some i) 200)
                  else query_errors (S i) data'
      | None => query_errors (S i) data'
      end
  end.

(** [query_indb(auth, query, database, chunked, raise_error)] *)
Definition query_indb (auth : gmap string pval) (query : string) (database : option string)
    (chunked raise_error : bool) : result query_out :=
  if negb (get_truthy auth "u") || negb (get_truthy auth "p")
  then Err (InfluxDBAuthError "Authentication parameters not specified") else
  '(url, params) ← query_request auth query database chunked;
  response ← http_get url params;
  if negb (Z.eqb (status_code response) 200) then
    if raise_error then Err (raise_response_error response) else Ok (QResponse response)
  else if chunked then
    let s := content response in
    if existsb (fun c => 128 <=? Ascii.nat_of_ascii c)%nat (list_ascii_of_string s)
    then Err (ValueError "'ascii' codec can't decode byte")
    else QObjects <$> loads_loop (S (String.length s)) s
  else
    match json response with
    | None => Err (ValueError "No JSON object could be decoded")
    | Some j =>
        match j_results j with
        | None => Err (KeyError "results")
        | Some data =>
            if negb raise_error then Ok (QResults data) else
            match query_errors 0 data with
            | Some e => Err e
            | None => Ok (QResults data)
            end
        end
    end.

End Requests.

End Io.

(* ------------------------------------------------------------------ *)
(** ** [indb_pd]: [dict_to_indb], [list_to_indb], [record_indb],
    [query_indb_df] *)

(** A dict of [list_to_indb]/[dict_to_indb]: its keys (distinct) and values. *)
Definition record := list (string * cell).

Fixpoint rec_get (d : record) (k : string) : option cell :=
  match d with
  | [] => None
  | (k', x) :: d' => if String.eqb k' k then Some x else rec_get d' k
  end.

(** [pd.DataFrame(data)] for a list of dicts: the columns are the sorted
    union of the keys, a missing key is NaN, and the index is a
    [RangeIndex]. *)
Definition frame_of_records (data : list record) : frame ixval :=
  let cols := merge_sort String.le (remove_dups (List.concat (map (map fst) data))) in
  mkFrame cols (imap (fun i d => (IxInt (Z.of_nat i), map (fun c => default None (rec_get d c)) cols)) data).

Section Convert.

Variable parse_dt : string -> option Z.
Variable fmt_ns : Z -> string.

(** [dict_to_indb(data, **o)] *)
Definition dict_to_indb (o : options) (data : record) : result batch :=
  fst (df_to_indb parse_dt fmt_ns o (frame_of_records [data])).

(** [list_to_indb(data, **o)] *)
Definition list_to_indb (o : options) (data : list record) : result batch :=
  fst (df_to_indb parse_dt fmt_ns o (frame_of_records data)).

(** The [data] argument of [record_indb]. *)
Inductive rdata :=
| RFrame (df : frame ixval)
| RRecords (l : list record)
| RBatch (b : batch)
| RRecord (d : record)
| ROther (repr : string).

(** A keyword argument of [record_indb] other than [compress] and
    [raise_error], with its value: a parameter of [df_to_indb], or
    ([KwOther]) a name that is none of them, which [df_to_indb] takes
    through [**kwargs] and ignores. *)
Inductive conv_kw :=
| KwLabels (x : gmap string cell)
| KwRetentionPolicy (x : option string)
| KwDatabase (x : option string)
| KwNs (x : string)
| KwSubset (x : list string)
| KwInlabels (x : option (list (string * string)))
| KwTs (x : option val)
| KwZeroNull (x : bool)
| KwPrecision (x : string)
| KwStrtime (x : bool)
| KwForcePrecision (x : bool)
| KwOther (name : string).

Definition kw_name (k : conv_kw) : string :=
  match k with
  | KwLabels _ => "labels" | KwRetentionPolicy _ => "retentionPolicy"
  | KwDatabase _ => "database" | KwNs _ => "ns" | KwSubset _ => "subset"
  | KwInlabels _ => "inlabels" | KwTs _ => "ts" | KwZeroNull _ => "zero_null"
  | KwPrecision _ => "precision" | KwStrtime _ => "strtime"
  | KwForcePrecision _ => "force_precision" | KwOther n => n
  end.

(** The value a keyword gives to its parameter of [df_to_indb]. *)
Definition set_kw (o : options) (k : conv_kw) : options :=
  let '(mkOptions l rp db ns su il ts zn pr st fp) := o in
  match k with
  | KwLabels x => mkOptions x rp db ns su il ts zn pr st fp
  | KwRetentionPolicy x => mkOptions l x db ns su il ts zn pr st fp
  | KwDatabase x => mkOptions l rp x ns su il ts zn pr st fp
  | KwNs x => mkOptions l rp db x su il ts zn pr st fp
  | KwSubset x => mkOptions l rp db ns x il ts zn pr st fp
  | KwInlabels x => mkOptions l rp db ns su x ts zn pr st fp
  | KwTs x => mkOptions l rp db ns su il x zn pr st fp
  | KwZeroNull x => mkOptions l rp db ns su il ts x pr st fp
  | KwPrecision x => mkOptions l rp db ns su il ts zn x st fp
  | KwStrtime x => mkOptions l rp db ns su il ts zn pr x fp
  | KwForcePrecision x => mkOptions l rp db ns su il ts zn pr st x
  | KwOther _ => o
  end.

(** The keyword arguments of [record_indb(auth, data, **kwargs)]: those
    that are not [compress] or [raise_error], in the order given (each
    name once), and the values of [compress] and [raise_error]
    ([False] and [True] when not given). *)
Record rkwargs := mkRKwargs {
  rk_conv : list conv_kw;
  rk_compress : bool;
  rk_raise_error : bool }.

(** The names of the keywords that are not [compress] or [raise_error]. *)
Definition rk_names (kw : rkwargs) : list string := map kw_name (rk_conv kw).

(** The arguments [df_to_indb] receives through [**kwargs]. *)
Definition rk_opts (kw : rkwargs) : options := fold_left set_kw (rk_conv kw) default_options.

Variable http_post : Io.post_request -> result Io.http_response.
Variable gzip : string -> string.

(** [push_indb(auth, json_body, **kwargs)]: [push_indb] takes no other
    keyword than [compress] and [raise_error]. *)
Definition push_kw (auth : gmap string pval) (body : Io.payload) (kw : rkwargs)
    : result Io.push_out :=
  match rk_names kw with
  | n :: _ => Err (TypeError (String.append "push_indb() got an unexpected keyword argument '"
                                (String.append n "'")))
  | [] => Io.push_indb http_post gzip auth body (rk_compress kw) (rk_raise_error kw)
  end.

(** [_re_apply] on the write body. *)
Definition re_apply_batch (o : options) (b : batch) : batch :=
  mkBatch (b_points b) (b_precision b)
    (if Io.opt_truthy (o_retentionPolicy o) then o_retentionPolicy o else b_retentionPolicy b)
    (if Io.opt_truthy (o_database o) then o_database o else b_database b)
    (b_timestamp b) (b_tags b).

(** [d[k] = v] on a dict. *)
Fixpoint rec_set (d : record) (k : string) (x : cell) : record :=
  match d with
  | [] => [(k, x)]
  | (k', y) :: d' => if String.eqb k' k then (k', x) :: d' else (k', y) :: rec_set d' k x
  end.

(** [_re_apply] on a dict. *)
Definition re_apply_record (o : options) (d : record) : record :=
  let d := match o_database o with
           | Some db => if Io.opt_truthy (Some db) then rec_set d "database" (Some (VStr db)) else d
           | None => d
           end in
  match o_retentionPolicy o with
  | Some rp => if Io.opt_truthy (Some rp) then rec_set d "retentionPolicy" (Some (VStr rp)) else d
  | None => d
  end.

(** [record_indb(auth, data, **kwargs)]: the outcome and the caller's
    [data] afterwards. *)
Definition record_indb (auth : gmap string pval) (data : rdata) (kw : rkwargs)
    : result Io.push_out * rdata :=
  let o := rk_opts kw in
  match data with
  | RFrame df =>
      ((b ← fst (df_to_indb parse_dt fmt_ns o df); push_kw auth (Io.PBatch b) kw), data)
  | RRecords l => ((b ← list_to_indb o l; push_kw auth (Io.PBatch b) kw), data)
  | RBatch b =>
      let b := re_apply_batch o b in (push_kw auth (Io.PBatch b) kw, RBatch b)
  | RRecord d =>
      match dict_to_indb o d with
      | Err e => (Err e, data)
      | Ok b => let d := re_apply_record o d in (push_kw auth (Io.PBatch b) kw, RRecord d)
      end
  | ROther x => (push_kw auth (Io.PRaw x) kw, data)
  end.

End Convert.

(** The keyword arguments of [query_indb_df(auth, query, **kwargs)]:
    [database], [chunked], [raise_error], and the names of any others
    (such as [ns] or [inlabels]). *)
Record qkwargs := mkQKwargs {
  qk_database : option string;
  qk_chunked : bool;
  qk_raise_error : bool;
  qk_others : list string }.

Section QueryDf.

Variable parse_dt : string -> option Z.
Variable json_loads : string -> option response.
Variable http_get : pval -> gmap string pval -> result Io.http_response.
Variable raw_decode : string -> option (Io.http_json * nat).

(** The [data] [response_to_df] receives from [query_indb]: a list of
    chunks. A JSON object of a chunked response has the keys [results]
    and [error] of [http_json], so as a chunk it has its [error] and no
    [series]. A response object is falsy when its status
    is 400 or more; iterating a truthy one yields the text pieces of its
    content, which have no [get]. *)
Definition query_data (q : Io.query_out) : result response :=
  match q with
  | Io.QResults cs => Ok (RList cs)
  | Io.QObjects os => Ok (RList (map (fun j => mkChunk (Io.j_error j) []) os))
  | Io.QResponse r =>
      if Z.ltb (Io.status_code r) 400 && negb (String.eqb (Io.content r) "")
      then Err (AttributeError "'str' object has no attribute 'get'")
      else Ok RNone
  end.

(** [query_indb_df(auth, query, **kwargs)]: [query_indb] takes no keyword
    but its own, and [response_to_df] gets only keywords that are not
    [ns], [inlabels] or [ns<n>], so it decodes with its defaults. *)
Definition query_indb_df (auth : gmap string pval) (query : string) (kw : qkwargs)
    : result (frame dix) :=
  match qk_others kw with
  | n :: _ => Err (TypeError (String.append "query_indb() got an unexpected keyword argument '"
                                (String.append n "'")))
  | [] =>
      q ← Io.query_indb http_get raw_decode auth query (qk_database kw) (qk_chunked kw)
                        (qk_raise_error kw);
      data ← query_data q;
      response_to_df parse_dt json_loads (mkDOptions [""] None) data
  end.

End QueryDf.

(* ------------------------------------------------------------------ *)
(** ** Concrete inputs *)

(** numpy facilities fixed for concrete runs: no text parses as a date;
    json.loads parses nothing. *)
Definition no_parse (_ : string) : option Z := None.
Definition no_fmt (_ : Z) : string := "".
Definition no_loads (_ : string) : option response := None.



(** [df_to_indb] keyword arguments: [labels], [ns], [zero_null] and
    [precision] given, the others at their defaults. *)
Definition enc_options (labels : gmap string cell) (ns : string) (zero_null : bool)
    (precision : string) : options :=
  mkOptions labels None None ns [] None None zero_null precision false true.

(** The same keyword arguments with another [zero_null]. *)
Definition with_zero_null (o : options) (zero_null : bool) : options :=
  mkOptions (o_labels o) (o_retentionPolicy o) (o_database o) (o_ns o) (o_subset o)
    (o_inlabels o) (o_ts o) zero_null (o_precision o) (o_strtime o) (o_force_precision o).

(** A point of one field [value], with precision [ms] and no timestamp or tags. *)
Definition ms_point (name : string) (v : val) : point :=
  mkPoint name {[ "value" := v ]} (Some "ms") None None.

(** Two rows at 1 ms and 2 ms whose [pk] differs. *)
Definition df_pk_varies : frame ixval :=
  mkFrame ["_pk"; "x"] [(IxTime 1000000, [Some (VStr "Y"); Some (VInt 1)]);
                        (IxTime 2000000, [Some (VStr "Z"); Some (VInt 2)])].

(** Two rows at 1 ms and 2 ms with the same [pk]. *)
Definition df_pk_shared : frame ixval :=
  mkFrame ["_pk"; "x"] [(IxTime 1000000, [Some (VStr "Y"); Some (VInt 1)]);
                        (IxTime 2000000, [Some (VStr "Y"); Some (VInt 2)])].

(** One row at 1 ms with a [pk]. *)
Definition df_pk_one_row : frame ixval :=
  mkFrame ["_pk"; "x"] [(IxTime 1000000, [Some (VStr "P"); Some (VInt 1)])].

(** One row at 1 ms: [x = 0], [y = 1]. *)
Definition df_zero_x : frame ixval :=
  mkFrame ["x"; "y"] [(IxTime 1000000, [Some (VInt 0); Some (VInt 1)])].

(** Two rows at 1 ms and 2 ms whose only field is [0]. *)
Definition df_all_zero : frame ixval :=
  mkFrame ["x"] [(IxTime 1000000, [Some (VInt 0)]); (IxTime 2000000, [Some (VInt 0)])].

(** One row at 1 ms with the dotted columns [a.x] and [a.y]. *)
Definition df_dotted : frame ixval :=
  mkFrame ["a.x"; "a.y"] [(IxTime 1000000, [Some (VInt 1); Some (VInt 2)])].

(** One row at 1 ms with the field [x = 1] and the private column [_foo = 5]. *)
Definition df_private_col : frame ixval :=
  mkFrame ["x"; "_foo"] [(IxTime 1000000, [Some (VInt 1); Some (VInt 5)])].









(** The parameters [get_auth_indb('admin', 'password', url='http://db')]
    returns. *)
Definition auth_db : gmap string pval :=
  <["u" := PStr "admin"]> (<["p" := PStr "password"]>
    (<["qurl" := PStr "http://db:8086/query"]> {[ "wurl" := PStr "http://db:8086/write" ]})).

(** Parameters without a password, and parameters without URLs. *)
Definition auth_no_password : gmap string pval :=
  <["u" := PStr "admin"]> {[ "p" := PNone ]}.
Definition auth_no_urls : gmap string pval :=
  <["u" := PStr "admin"]> {[ "p" := PStr "password" ]}.

(** A server that answers every request with [r]; gzip and
    [raw_decode] left out. *)
Definition get_const (r : Io.http_response) (_ : pval) (_ : gmap string pval) : result Io.http_response :=
  Ok r.
Definition post_const (r : Io.http_response) (_ : Io.post_request) : result Io.http_response := Ok r.
Definition no_gzip (s : string) : string := s.

(** [requests.post] failing as [json.dumps] does on a payload it cannot
    serialise. *)
Definition post_unserialisable (_ : Io.post_request) : result Io.http_response :=
  Err (TypeError "is not JSON serializable").
Definition no_decode (_ : string) : option (Io.http_json * nat) := None.

(** [raw_decode] that reads the whole text as one JSON object whose
    results hold one series of data. *)
Definition decode_all (s : string) : option (Io.http_json * nat) :=
  Some (Io.mkJson None (Some [mkChunk None [mkSeries (Some "cpu") [] ["value"] [[Some (VInt 1)]]]]) None,
        String.length s).

(** The results [[{}, {"error": "measurement not found: foo"}]] in a
    response of status [code]; its text is abbreviated. *)
Definition resp_chunk_error (code : Z) : Io.http_response :=
  Io.mkResponse code "Bad Request" "body"
    (Some (Io.mkJson None (Some [mkChunk None []; mkChunk (Some "measurement not found: foo") []]) None)).

(** A 400 response with the error [bad request] and one result without
    error. *)
Definition resp_no_chunk_error : Io.http_response :=
  Io.mkResponse 400 "Bad Request" "body"
    (Some (Io.mkJson (Some "bad request") (Some [mkChunk None []]) None)).

(** A 500 response whose JSON body is [{}]. *)
Definition resp_empty_json : Io.http_response :=
  Io.mkResponse 500 "Internal Server Error" "body" (Some (Io.mkJson None None None)).

(** A 200 response with a non-empty text. *)
Definition resp_ok_text : Io.http_response :=
  Io.mkResponse 200 "OK" "body" (Some (Io.mkJson None None None)).

(** [query_indb_df] keyword arguments. *)
Definition qkw (chunked raise_error : bool) : qkwargs := mkQKwargs None chunked raise_error [].

(** [record_indb] keyword arguments: [labels={}], or [database='db1']. *)
Definition rkw_labels : rkwargs := mkRKwargs [KwLabels ∅] false true.
Definition rkw_database : rkwargs := mkRKwargs [KwDatabase (Some "db1")] false true.

(** The dict [{'x': 1}], and the list [[{'x': 1}, {'y': 2}]]. *)
Definition rec_x : record := [("x", Some (VInt 1))].
Definition recs_xy : list record := [[("x", Some (VInt 1))]; [("y", Some (VInt 2))]].

(** Results with one series of two rows at 2 ms and 1 ms. *)
Definition resp_two_rows : response :=
  RList [mkChunk None [mkSeries (Some "cpu") [] ["time"; "value"]
                         [[Some (VStr "t2"); Some (VInt 2)]; [Some (VStr "t1"); Some (VInt 1)]]]].

(** A date parser for the two instants of [resp_two_rows]. *)
Definition parse_t (s : string) : option Z :=
  if String.eqb s "t1" then Some 1000000%Z else if String.eqb s "t2" then Some 2000000%Z else None.

(* ------------------------------------------------------------------ *)
(** * Properties *)

(** ** Small examples *)

Example get_parts_abc : Ns.get_parts "a.b.c." = ["a.b.c."; "b.c."; "c."].
Proof. reflexivity. Qed.
Example filter_ns_abc : Ns.filter_ns ["a.b.c."; "b.c."; "c."] "a.b.c.temp" = "temp".
Proof. reflexivity. Qed.
Example filter_ns_bad_order : Ns.filter_ns ["a."; "a.b."] "a.b.x" = "".
Proof. reflexivity. Qed.
Example raise_unknown_field : Classify.raise_error "unknown field x" (Some 0%nat) 200 = QueryError "200: 0: unknown field x".
Proof. reflexivity. Qed.


(** ** Strings *)

Lemma append_cons_str (c : ascii) (a b : string) :
  String.append (String c a) b = String c (String.append a b).
Proof. reflexivity. Qed.

Lemma append_nil_str (b : string) : String.append "" b = b.
Proof. reflexivity. Qed.

Lemma length_append (a b : string) :
  String.length (String.append a b) = (String.length a + String.length b)%nat.
Proof. induction a as [|c a IH]; simpl; [done | by rewrite IH]. Qed.

Lemma join_cons2 (x y : string) (t : list string) :
  String.length (PyStr.join "." (x :: y :: t)) =
  (String.length x + S (String.length (PyStr.join "." (y :: t))))%nat.
Proof. cbn [PyStr.join]. rewrite !length_append. done. Qed.

(** ** Namespace stripping *)

Module NsFacts.
Import Ns.

(** Once a candidate has matched, shorter candidates change nothing. *)
Lemma loop_after (l : list string) (sensor ps prev : string) :
  Forall (fun q => String.length q <= String.length prev)%nat l ->
  filter_ns_loop l sensor ps prev = ps.
Proof.
  induction l as [|q l IH]; intros Hl; simpl; [done|].
  inversion Hl as [|? ? Hq Hl']; subst.
  destruct (PyStr.startswith sensor q); simpl.
  - destruct (String.length prev <? String.length q)%nat eqn:E.
    + apply Nat.ltb_lt in E. lia.
    + by apply IH.
  - by apply IH.
Qed.

(** On candidates sorted longest first, the loop strips the first, hence
    the longest, candidate that is a prefix. *)
Lemma loop_longest (l : list string) (sensor : string) :
  StronglySorted longer l -> Forall (fun p => 0 < String.length p)%nat l ->
  (Forall (fun p => String.prefix p sensor = false) l /\ filter_ns_loop l sensor sensor "" = sensor)
  \/ (exists p, In p l /\ String.prefix p sensor = true /\
        filter_ns_loop l sensor sensor "" = PyStr.drop (String.length p) sensor /\
        forall q, In q l -> String.prefix q sensor = true -> (String.length q <= String.length p)%nat).
Proof.
  induction l as [|p l IH]; intros Hs Hn; simpl.
  - left. done.
  - inversion Hs as [|? ? Hs' Hlt]; subst.
    inversion Hn as [|? ? Hp Hn']; subst.
    unfold PyStr.startswith.
    destruct (String.prefix p sensor) eqn:Hpre; simpl.
    + assert (E : (0 <? String.length p)%nat = true) by (apply Nat.ltb_lt; lia).
      rewrite E. right. exists p. split; [by left|]. split; [done|]. split.
      * apply loop_after. eapply Forall_impl; [exact Hlt|]. unfold longer. intros; lia.
      * intros q [<-|Hq] _; [lia|].
        rewrite List.Forall_forall in Hlt. specialize (Hlt q Hq). unfold longer in Hlt. lia.
    + destruct (IH Hs' Hn') as [[Hall Heq]|(q & Hq & Hqp & Heq & Hmax)].
      * left. split; [by constructor|done].
      * right. exists q. split; [by right|]. split; [done|]. split; [done|].
        intros r [<-|Hr] Hrp; [congruence|]. by apply Hmax.
Qed.

Lemma skipn_cons_nth {A} (l : list A) (i : nat) (d : A) :
  (i < List.length l)%nat -> skipn i l = List.nth i l d :: skipn (S i) l.
Proof.
  revert l. induction i as [|i IH]; intros [|x l] H; simpl in *; try lia; [done|].
  apply IH. lia.
Qed.

Lemma join_skipn_lt (parts : list string) (i : nat) :
  (S i < List.length parts)%nat ->
  (String.length (PyStr.join "." (skipn (S i) parts)) <
   String.length (PyStr.join "." (skipn i parts)))%nat.
Proof.
  intros H.
  rewrite (skipn_cons_nth parts i "") by lia.
  rewrite (skipn_cons_nth parts (S i) "") by lia.
  rewrite join_cons2. lia.
Qed.

Lemma join_skipn_pos (parts : list string) (i : nat) :
  (S i < List.length parts)%nat ->
  (0 < String.length (PyStr.join "." (skipn i parts)))%nat.
Proof.
  intros H.
  rewrite (skipn_cons_nth parts i "") by lia.
  rewrite (skipn_cons_nth parts (S i) "") by lia.
  rewrite join_cons2. lia.
Qed.

Lemma join_skipn_mono (parts : list string) (i j : nat) :
  (i < j)%nat -> (S j < List.length parts)%nat ->
  (String.length (PyStr.join "." (skipn j parts)) <
   String.length (PyStr.join "." (skipn i parts)))%nat.
Proof.
  intros Hij. induction Hij as [|j Hij IH]; intros Hj.
  - apply join_skipn_lt. lia.
  - etrans; [apply join_skipn_lt; lia|]. apply IH. lia.
Qed.

Lemma sorted_parts (parts : list string) (a k : nat) :
  (a + k < List.length parts)%nat ->
  StronglySorted longer (map (fun ii => PyStr.join "." (skipn ii parts)) (seq a k)) /\
  Forall (fun p => 0 < String.length p)%nat (map (fun ii => PyStr.join "." (skipn ii parts)) (seq a k)).
Proof.
  revert a. induction k as [|k IH]; intros a H; simpl; [split; constructor|].
  destruct (IH (S a)) as [Hs Hn]; [lia|].
  split; constructor; try done.
  - apply List.Forall_forall. intros y Hy. apply in_map_iff in Hy as (j & <- & Hj).
    apply in_seq in Hj. unfold longer. apply join_skipn_mono; lia.
  - apply join_skipn_pos. lia.
Qed.

Lemma get_parts_sorted (ns : string) :
  StronglySorted longer (get_parts ns) /\ Forall (fun p => 0 < String.length p)%nat (get_parts ns).
Proof.
  destruct ns as [|c ns]; [split; constructor|].
  unfold get_parts. apply sorted_parts.
  assert (List.length (PyStr.split "." (String c ns)) <> 0)%nat.
  { simpl. destruct (Ascii.eqb c "."); [simpl; lia|].
    destruct (PyStr.split "." ns); simpl; lia. }
  lia.
Qed.

End NsFacts.

(** ** The classifier *)

Module ClassifyFacts.
Import PyStr Classify.

Lemma low_chars_append (a b : string) : low_chars a -> low_chars b -> low_chars (String.append a b).
Proof. induction a as [|c a IH]; [done|]. rewrite append_cons_str. simpl. intros [? ?] ?. split; auto. Qed.

Lemma low_chars_uint (d : Decimal.uint) : low_chars (NilEmpty.string_of_uint d).
Proof.
  induction d; simpl; try done; (split; [apply Nat.ltb_lt; reflexivity | done]).
Qed.

Lemma low_chars_of_Z (z : Z) : low_chars (of_Z z).
Proof.
  unfold of_Z, NilEmpty.string_of_int. destruct (Z.to_int z) as [d|d].
  - apply low_chars_uint.
  - simpl. split; [apply Nat.ltb_lt; reflexivity | apply low_chars_uint].
Qed.

Lemma lower_append (a b : string) : lower (String.append a b) = String.append (lower a) (lower b).
Proof. induction a as [|c a IH]; [done|]. rewrite append_cons_str. simpl. by rewrite IH. Qed.

Lemma append_assoc_str (a b c : string) :
  String.append a (String.append b c) = String.append (String.append a b) c.
Proof. induction a as [|x a IH]; [done|]. rewrite !append_cons_str. by rewrite IH. Qed.

Lemma lower_low (s : string) : low_chars s -> lower s = s.
Proof.
  induction s as [|c s IH]; simpl; [done|]. intros [Hc Hs]. rewrite IH by done.
  unfold lower_char. destruct (65 <=? nat_of_ascii c)%nat eqn:E; [|done].
  apply Nat.leb_le in E. lia.
Qed.

(** A pattern whose first character is a letter never matches across a
    prefix made of digits and punctuation. *)
Lemma contains_skip (pre x : string) (d : ascii) (pat : string) :
  low_chars pre -> (65 <= nat_of_ascii d)%nat ->
  contains (String d pat) (String.append pre x) = contains (String d pat) x.
Proof.
  intros Hpre Hd. induction pre as [|c pre IH]; [done|].
  rewrite append_cons_str. simpl. destruct Hpre as [Hc Hpre].
  destruct (ascii_dec d c) as [->|_]; [lia|]. simpl. by apply IH.
Qed.

(** The text the classifier matches: [lower(error)] after the optional
    ["{code}: {chunk_idx}: "] prefix. *)
Lemma lower_message (e : string) (idx : option nat) (code : Z) :
  exists pre, low_chars pre /\
    lower (match idx with
           | Some i => String.append (of_Z code) (String.append ": "
                         (String.append (of_nat i) (String.append ": " e)))
           | None => e
           end) = String.append pre (lower e).
Proof.
  destruct idx as [i|].
  - exists (String.append (of_Z code) (String.append ": " (String.append (of_nat i) ": "))).
    assert (Hl : low_chars (String.append (of_Z code) (String.append ": " (String.append (of_nat i) ": ")))).
    { apply low_chars_append; [apply low_chars_of_Z|].
      apply low_chars_append; [cbn; repeat split; apply Nat.ltb_lt; reflexivity|].
      apply low_chars_append; [apply low_chars_of_Z|].
      cbn; repeat split; apply Nat.ltb_lt; reflexivity. }
    split; [done|].
    rewrite !lower_append. rewrite !lower_low by (try apply low_chars_of_Z;
      cbn; repeat split; apply Nat.ltb_lt; reflexivity).
    rewrite !append_assoc_str. done.
  - exists "". split; done.
Qed.

Lemma kind_of_raise_error (e : string) (idx : option nat) (code : Z) :
  kind_of (raise_error e idx code) = decide_kind (lower e).
Proof.
  destruct (lower_message e idx code) as (pre & Hpre & Hlow).
  unfold raise_error. cbv zeta. rewrite Hlow.
  rewrite !(contains_skip pre (lower e)) by (done || (apply Nat.leb_le; reflexivity)).
  unfold decide_kind.
  destruct (contains "measurement" (lower e) && contains "not found" (lower e)); [done|].
  destruct (contains "unknown" (lower e) && contains "field" (lower e) && contains "tag" (lower e)); done.
Qed.

End ClassifyFacts.

(** ** The decoder *)

Module DecodeFacts.

Section WithParse.
Variable parse_dt : string -> option Z.



End WithParse.

End DecodeFacts.

(** ** The encoder *)

Module EncodeFacts.

(** Lists and masks. *)

Lemma mask_sub {A} (m : list bool) (l : list A) (x : A) :
  x ∈ Frame.mask m l -> x ∈ l.
Proof.
  revert l. induction m as [|b m IH]; intros [|y l]; simpl; intros H;
    try by apply elem_of_nil in H.
  destruct b.
  - apply elem_of_cons in H as [->|H]; [left|right; eauto].
  - right. eauto.
Qed.


Lemma mask_length {A B} (m : list bool) (l1 : list A) (l2 : list B) :
  length l1 = length l2 -> length (Frame.mask m l1) = length (Frame.mask m l2).
Proof.
  revert l1 l2. induction m as [|b m IH]; intros [|x l1] [|y l2] H; simpl in *; try done.
  destruct b; simpl; auto.
Qed.


Lemma zip_in_l {A B} (l : list A) (k : list B) (a : A) (b : B) :
  (a, b) ∈ zip l k -> a ∈ l.
Proof.
  intros [i Hi]%list_elem_of_lookup.
  apply lookup_zip_with_Some in Hi as (x & y & [= -> ->] & Hx & _).
  by eapply list_elem_of_lookup_2.
Qed.

Lemma elem_of_map {A B} (f : A -> B) (l : list A) (y : B) :
  y ∈ map f l <-> exists x, y = f x /\ x ∈ l.
Proof.
  rewrite list_elem_of_In, in_map_iff. split.
  - intros (x & <- & Hx). exists x. rewrite list_elem_of_In. auto.
  - intros (x & -> & Hx). exists x. rewrite <- list_elem_of_In. auto.
Qed.

Lemma mapM_err {A B} (f : A -> result B) (l : list A) (e : exn) :
  mapM f l = Err e -> exists x, x ∈ l /\ f x = Err e.
Proof.
  induction l as [|x l IH]; simpl; [discriminate|].
  destruct (f x) eqn:Hx; simpl.
  - destruct (mapM f l) eqn:Hl; simpl; [discriminate|].
    intros [= ->]. destruct (IH eq_refl) as (y & Hy & Hfy). exists y. split; [right|]; done.
  - intros [= ->]. exists x. split; [left|done].
Qed.


(** The columns. *)

Lemma col_pos_lookup (cols : list string) (c : string) (i : nat) :
  Frame.col_pos cols c = Some i -> cols !! i = Some c.
Proof.
  revert i. induction cols as [|c' cols IH]; intros i; simpl; [discriminate|].
  destruct (String.eqb_spec c' c) as [->|_]; [by intros [= <-]|].
  destruct (Frame.col_pos cols c) eqn:E; simpl; [|discriminate].
  intros [= <-]. simpl. by apply IH.
Qed.



Lemma set_col_columns {I} (c : string) (cells : list cell) (df : frame I) (c' : string) :
  c' ∈ columns (Frame.set_col c cells df) -> c' ∈ columns df \/ c' = c.
Proof.
  unfold Frame.set_col. destruct (Frame.col_pos (columns df) c); simpl; [by left|].
  rewrite elem_of_app, list_elem_of_singleton. tauto.
Qed.

Lemma drop_col_columns {I} (c : string) (df : frame I) (c' : string) :
  c' ∈ columns (Frame.drop_col c df) -> c' ∈ columns df.
Proof. apply mask_sub. Qed.

(** The points of a row. *)

Lemma field_point_spec (o : options) (ns : string) (ts : option val)
    (ml : gmap string cell) (c : string) (v : val) (p : point) :
  field_point o ns ts ml (c, v) = Some p ->
  c <> "time" /\ Py.is_null (Some v) true = false /\ is_private (o_subset o) c = false /\
  p_name p = String.append ns c /\ p_fields p = {[ "value" := v ]} /\ p_timestamp p = ts.
Proof.
  unfold field_point.
  destruct (String.eqb_spec c "time"); [discriminate|].
  destruct (Py.is_null (Some v) true); [discriminate|].
  destruct (is_private (o_subset o) c); [discriminate|].
  intros [= <-]. simpl. repeat split; done.
Qed.

Lemma nonnull_items_in (cols : list string) (row : list cell) (c : string) (v : val) :
  (c, v) ∈ Frame.nonnull_items cols row <-> (c, Some v) ∈ Frame.items cols row.
Proof.
  unfold Frame.nonnull_items. rewrite list_elem_of_omap. split.
  - intros ([c' x] & Hin & Hx). simpl in Hx. destruct x; simplify_eq. done.
  - intros H. exists (c, Some v). split; done.
Qed.

Lemma row_points_in (o : options) (inl : list (string * string)) (labels : gmap string cell)
    (ns : string) (cols : list string) (row : list cell) (p : point) :
  p ∈ row_points o inl labels ns cols row ->
  exists c v ts ml, (c, Some v) ∈ Frame.items cols row /\ field_point o ns ts ml (c, v) = Some p.
Proof.
  unfold row_points. intros ([c v] & Hin & Hp)%list_elem_of_omap.
  apply nonnull_items_in in Hin. do 4 eexists. split; [exact Hin|exact Hp].
Qed.

Lemma emit_in (o : options) (labels : gmap string cell) (df : frame ixval) (p : point) :
  p ∈ emit o labels df ->
  exists r c v ts ml, r ∈ rows df /\ (c, Some v) ∈ Frame.items (columns df) (snd r) /\
    field_point o (norm_ns (o_ns o)) ts ml (c, v) = Some p.
Proof.
  unfold emit. rewrite list_elem_of_In, in_flat_map. intros (r & Hr & Hp).
  apply list_elem_of_In in Hp. apply row_points_in in Hp as (c & v & ts & ml & Hin & Hf).
  exists r, c, v, ts, ml. rewrite list_elem_of_In. auto.
Qed.


(** Items of a row under the frame operations. *)

Lemma items_rename (f : string -> string) (cols : list string) (row : list cell) :
  Frame.items (map f cols) row = map (fun p => (f (fst p), snd p)) (Frame.items cols row).
Proof.
  unfold Frame.items. revert row. induction cols as [|c cols IH]; intros [|x row]; simpl; try done.
  by rewrite IH.
Qed.

Lemma items_mask (m : list bool) (cols : list string) (row : list cell) :
  length row = length cols ->
  Frame.items (Frame.mask m cols) (Frame.mask m row) = Frame.mask m (Frame.items cols row).
Proof.
  unfold Frame.items. revert cols row.
  induction m as [|b m IH]; intros [|c cols] [|x row] H; simpl in *; try done.
  destruct b; simpl; rewrite IH; auto.
Qed.

Lemma wf_rename {I} (f : string -> string) (df : frame I) :
  Frame.wf df -> Frame.wf (Frame.rename f df).
Proof.
  unfold Frame.wf, Frame.rename. simpl. rewrite length_map. done.
Qed.

Lemma wf_keep_cols {I} (m : list bool) (df : frame I) :
  Frame.wf df -> Frame.wf (Frame.keep_cols m df).
Proof.
  unfold Frame.wf, Frame.keep_cols. simpl. rewrite !Forall_forall.
  intros H r' (r & -> & Hr)%elem_of_map. simpl. apply mask_length. auto.
Qed.

Lemma wf_drop_col {I} (c : string) (df : frame I) :
  Frame.wf df -> Frame.wf (Frame.drop_col c df).
Proof. apply wf_keep_cols. Qed.

Lemma wf_dropna_rows {I} (df : frame I) :
  Frame.wf df -> Frame.wf (Frame.dropna_rows df).
Proof.
  unfold Frame.wf, Frame.dropna_rows. simpl. rewrite !Forall_forall.
  intros H r (_ & Hr)%list_elem_of_filter. auto.
Qed.

Lemma wf_set_col {I} (c : string) (cells : list cell) (df : frame I) :
  Frame.wf df -> Frame.wf (Frame.set_col c cells df).
Proof.
  unfold Frame.wf, Frame.set_col. rewrite !Forall_forall. intros H.
  destruct (Frame.col_pos (columns df) c); simpl;
    intros r' [k Hk]%list_elem_of_lookup;
    apply lookup_zip_with_Some in Hk as (r & x & -> & Hr & _); simpl;
    apply list_elem_of_lookup_2 in Hr; apply H in Hr.
  - by rewrite length_insert.
  - rewrite !length_app. simpl. lia.
Qed.

Lemma wf_prepare (o : options) (df : frame ixval) :
  Frame.wf df -> Frame.wf (prepare o df).
Proof.
  intros H. unfold prepare. apply wf_dropna_rows. apply wf_keep_cols.
  case_bool_decide; repeat apply wf_rename; done.
Qed.

(** Backwards: the cells of a row of the result come from one row of the
    argument, with the same index label. *)

Lemma keep_cols_back {I} (m : list bool) (df : frame I) (r' : I * list cell) :
  Frame.wf df -> r' ∈ rows (Frame.keep_cols m df) ->
  exists r, r ∈ rows df /\ fst r' = fst r /\
    forall c x, (c, x) ∈ Frame.items (columns (Frame.keep_cols m df)) (snd r') ->
                (c, x) ∈ Frame.items (columns df) (snd r).
Proof.
  unfold Frame.wf, Frame.keep_cols. rewrite Forall_forall. simpl.
  intros Hwf (r & -> & Hr)%elem_of_map. exists r. split; [done|]. split; [done|].
  simpl. intros c x. rewrite items_mask by auto. apply mask_sub.
Qed.

Lemma set_col_back {I} (t : string) (cells : list cell) (df : frame I) (r' : I * list cell) :
  Frame.wf df -> r' ∈ rows (Frame.set_col t cells df) ->
  exists r, r ∈ rows df /\ fst r' = fst r /\
    forall c x, (c, x) ∈ Frame.items (columns (Frame.set_col t cells df)) (snd r') -> c <> t ->
                (c, x) ∈ Frame.items (columns df) (snd r).
Proof.
  unfold Frame.wf, Frame.set_col. rewrite Forall_forall. intros Hwf.
  destruct (Frame.col_pos (columns df) t) as [i|] eqn:Ei; simpl;
    intros [k Hk]%list_elem_of_lookup;
    apply lookup_zip_with_Some in Hk as (r & y & -> & Hr & _); simpl;
    apply list_elem_of_lookup_2 in Hr; exists r; (split; [done|]); (split; [done|]);
    intros c x [j Hj]%list_elem_of_lookup Hct; unfold Frame.items in *;
    apply lookup_zip_with_Some in Hj as (c' & x' & [= <- <-] & Hc & Hx).
  - apply col_pos_lookup in Ei.
    destruct (decide (j = i)) as [->|Hji]; [congruence|].
    rewrite list_lookup_insert_ne in Hx by done.
    eapply list_elem_of_lookup_2. apply lookup_zip_with_Some. eauto.
  - assert (Hlen := Hwf r Hr).
    destruct (decide (j < length (columns df))%nat) as [Hj|Hj].
    + rewrite lookup_app_l in Hc by done. rewrite lookup_app_l in Hx by lia.
      eapply list_elem_of_lookup_2. apply lookup_zip_with_Some. eauto.
    + rewrite lookup_app_r in Hc by lia.
      apply list_lookup_singleton_Some in Hc as [_ <-]. done.
Qed.

Lemma rename_back {I} (f : string -> string) (df : frame I) (r : I * list cell) (c : string) (x : cell) :
  (c, x) ∈ Frame.items (columns (Frame.rename f df)) (snd r) ->
  exists c0, c = f c0 /\ (c0, x) ∈ Frame.items (columns df) (snd r).
Proof.
  simpl. rewrite items_rename. intros ([c0 x0] & [= -> ->] & H)%elem_of_map. eauto.
Qed.

Lemma bind_err {A B} (r : result A) (k : A -> result B) (e : exn) :
  (x ← r; k x) = Err e -> r = Err e \/ exists x, r = Ok x /\ k x = Err e.
Proof.
  destruct r as [a|e']; cbv [mbind result_bind bind]; intros H; [right; exists a; split; [reflexivity|exact H]|left; congruence].
Qed.

Lemma fmap_err {A B} (f : A -> B) (r : result A) (e : exn) :
  f <$> r = Err e -> r = Err e.
Proof. destruct r; cbv [fmap result_fmap]; simpl; congruence. Qed.

Section Stages.

Variable parse_dt : string -> option Z.
Variable fmt_ns : Z -> string.

Lemma factor_tags_columns (inl : list (string * string)) (labels : gmap string cell)
    (df df' : frame ixval) (l : gmap string cell) :
  factor_tags inl labels df = (Ok df', l) -> forall c, c ∈ columns df' -> c ∈ columns df.
Proof.
  revert labels df. induction inl as [|[label v] inl IH]; intros labels df; simpl.
  - by intros [= -> _].
  - destruct (_ && _).
    + destruct (_ =? _)%nat.
      * destruct (first_at df _); [|discriminate].
        intros H c Hc. apply (drop_col_columns label). exact (IH _ _ H c Hc).
      * apply IH.
    + apply IH.
Qed.

Lemma factor_columns (o : options) (labels : gmap string cell) (df df' : frame ixval)
    (ts : option val) (l : gmap string cell) :
  factor parse_dt fmt_ns o labels df = (Ok (ts, df'), l) ->
  forall c, c ∈ columns df' -> c ∈ columns df \/ c = "time".
Proof.
  unfold factor. destruct (get_ts _ _ _ _ _) as [tcol|e]; [|discriminate].
  destruct (factor_tags _ _ _) as [[df1|e] l1] eqn:Hft; [|discriminate].
  destruct (negb _); [discriminate|].
  intros H c Hc.
  assert (Hc1 : c ∈ columns df1).
  { destruct (_ =? _)%nat.
    - destruct (first_at _ _); [|discriminate]. injection H as <- <- _.
      by apply drop_col_columns in Hc.
    - by injection H as <- <- _. }
  apply (factor_tags_columns _ _ _ _ _ Hft) in Hc1.
  by apply set_col_columns in Hc1.
Qed.

Lemma prepare_columns (o : options) (df : frame ixval) (c : string) :
  c ∈ columns (prepare o df) -> exists c0, c0 ∈ columns df /\ c = column_name o c0.
Proof.
  unfold prepare, column_name. simpl. intros Hc%mask_sub.
  case_bool_decide; simpl in Hc.
  - apply elem_of_map in Hc as (c0 & -> & Hc0). eauto.
  - apply elem_of_map in Hc as (c1 & -> & Hc1).
    apply elem_of_map in Hc1 as (c0 & -> & Hc0). eauto.
Qed.

Lemma prepare_back (o : options) (df : frame ixval) (r' : ixval * list cell) :
  Frame.wf df -> r' ∈ rows (prepare o df) ->
  exists r, r ∈ rows df /\ fst r' = fst r /\
    forall c x, (c, x) ∈ Frame.items (columns (prepare o df)) (snd r') ->
      exists c0, c = column_name o c0 /\ (c0, x) ∈ Frame.items (columns df) (snd r).
Proof.
  intros Hwf. unfold prepare, column_name. simpl.
  case_bool_decide as Hp;
    intros (_ & Hr')%list_elem_of_filter;
    (eapply keep_cols_back in Hr' as (r & Hr & Hfst & Hits);
     [|by repeat apply wf_rename]);
    exists r; (split; [done|]); (split; [done|]);
    intros c x Hcx; apply Hits in Hcx.
  - apply rename_back in Hcx as (c0 & -> & Hc0). eauto.
  - apply rename_back in Hcx as (c1 & -> & Hc1).
    apply rename_back in Hc1 as (c0 & -> & Hc0). eauto.
Qed.

Lemma factor_tags_back (inl : list (string * string)) (labels : gmap string cell)
    (df df' : frame ixval) (l : gmap string cell) :
  Frame.wf df -> factor_tags inl labels df = (Ok df', l) ->
  Frame.wf df' /\ forall r', r' ∈ rows df' -> exists r, r ∈ rows df /\ fst r' = fst r /\
    forall c x, (c, x) ∈ Frame.items (columns df') (snd r') -> (c, x) ∈ Frame.items (columns df) (snd r).
Proof.
  revert labels df. induction inl as [|[label v] inl IH]; intros labels df Hwf; simpl.
  - intros [= <- _]. split; [done|]. intros r' Hr'. exists r'. auto.
  - destruct (_ && _); [destruct (_ =? _)%nat|].
    + destruct (first_at df _); [|discriminate].
      intros H. apply IH in H as [Hwf' Hb]; [|by apply wf_drop_col].
      split; [done|]. intros r' Hr'.
      destruct (Hb r' Hr') as (r1 & Hr1 & Hf1 & Hi1).
      destruct (keep_cols_back _ _ r1 Hwf Hr1) as (r & Hr & Hf & Hi).
      exists r. split; [done|]. split; [congruence|]. auto.
    + by apply IH.
    + by apply IH.
Qed.

Lemma factor_back (o : options) (labels : gmap string cell) (df df' : frame ixval)
    (ts : option val) (l : gmap string cell) :
  Frame.wf df -> factor parse_dt fmt_ns o labels df = (Ok (ts, df'), l) ->
  Frame.wf df' /\ forall r', r' ∈ rows df' -> exists r, r ∈ rows df /\ fst r' = fst r /\
    forall c x, (c, x) ∈ Frame.items (columns df') (snd r') -> c <> "time" ->
                (c, x) ∈ Frame.items (columns df) (snd r).
Proof.
  intros Hwf. unfold factor.
  destruct (get_ts _ _ _ _ _) as [tcol|e]; [|discriminate].
  set (df1 := Frame.set_col "time" _ df).
  assert (Hwf1 : Frame.wf df1) by (apply wf_set_col; done).
  destruct (factor_tags _ _ df1) as [[df2|e] l2] eqn:Hft; [|discriminate].
  apply factor_tags_back in Hft as [Hwf2 Hb2]; [|done].
  destruct (negb _); [discriminate|].
  assert (Hfin : forall df3, Frame.wf df3 ->
            (forall r', r' ∈ rows df3 -> exists r, r ∈ rows df2 /\ fst r' = fst r /\
               forall c x, (c, x) ∈ Frame.items (columns df3) (snd r') ->
                           (c, x) ∈ Frame.items (columns df2) (snd r)) ->
            Frame.wf df3 /\ forall r', r' ∈ rows df3 -> exists r, r ∈ rows df /\ fst r' = fst r /\
              forall c x, (c, x) ∈ Frame.items (columns df3) (snd r') -> c <> "time" ->
                          (c, x) ∈ Frame.items (columns df) (snd r)).
  { intros df3 Hwf3 Hb3. split; [done|]. intros r' Hr'.
    destruct (Hb3 r' Hr') as (r2 & Hr2 & Hf2 & Hi2).
    destruct (Hb2 r2 Hr2) as (r1 & Hr1 & Hf1 & Hi1).
    destruct (set_col_back _ _ _ r1 Hwf Hr1) as (r & Hr & Hf & Hi).
    exists r. split; [done|]. split; [congruence|]. auto. }
  destruct (_ =? _)%nat.
  - destruct (first_at _ _); [|discriminate]. intros [= _ <- _].
    apply Hfin; [by apply wf_drop_col|]. intros r' Hr'. by apply keep_cols_back.
  - intros [= _ <- _]. apply Hfin; [done|]. intros r' Hr'. exists r'. auto.
Qed.

Lemma dt64_err (c : cell) (e : exn) : dt64 parse_dt c = Err e -> stage_exn e.
Proof.
  unfold dt64. destruct c as [[z|str]|]; [by intros [= <-]| |discriminate].
  destruct (String.eqb_spec str "NaT") as [->|Hne]; [discriminate|].
  assert (Hm : match str with "NaT" => Ok None
               | _ => match parse_dt str with Some t => Ok (Some t)
                      | None => Err (ValueError "Error parsing datetime string") end end =
               match parse_dt str with Some t => Ok (Some t)
               | None => Err (ValueError "Error parsing datetime string") end).
  { repeat (match goal with |- context [match ?x with _ => _ end] => is_var x; destruct x end);
      try reflexivity; congruence. }
  rewrite Hm. destruct (parse_dt str); [discriminate|]. by intros [= <-].
Qed.

Lemma dt64_us_err (c : cell) (e : exn) : dt64_us parse_dt c = Err e -> stage_exn e.
Proof.
  unfold dt64_us. destruct c as [[z|str]|]; [discriminate| |]; apply dt64_err.
Qed.

Lemma get_ts_err (labels : gmap string cell) (precision : string) (strtime : bool)
    (df : frame ixval) (e : exn) :
  get_ts parse_dt fmt_ns labels precision strtime df = Err e -> stage_exn e.
Proof.
  unfold get_ts. intros [H|(ts & H1 & H2)]%bind_err.
  - unfold ts_source in H. destruct (index_ts _); [discriminate|].
    destruct (Frame.has_col df "_time").
    + destruct (mapM (dt64 parse_dt) _) eqn:E1; [discriminate|].
      apply fmap_err, mapM_err in H as (c & _ & Hc). by apply dt64_us_err in Hc.
    + destruct (labels !! "time") as [[v|]|]; [|discriminate|discriminate].
      apply bind_err in H as [H|(x & _ & H)]; [|by injection H as <-].
      destruct (Py.truthy v); [|discriminate]. by apply dt64_err in H.
  - unfold ts_values in H2. destruct ts as [[k ts]|]; [|discriminate].
    destruct strtime; [discriminate|].
    destruct (unit_as precision) as [u|]; [|by injection H2 as <-].
    apply fmap_err, mapM_err in H2 as ([t|] & _ & Ht); [discriminate|].
    by injection Ht as <-.
Qed.

Lemma factor_tags_err (inl : list (string * string)) (labels : gmap string cell)
    (df : frame ixval) (e : exn) (l : gmap string cell) :
  factor_tags inl labels df = (Err e, l) -> stage_exn e.
Proof.
  revert labels df. induction inl as [|[label v] inl IH]; intros labels df; simpl; [discriminate|].
  destruct (_ && _); [destruct (_ =? _)%nat|]; [|apply IH|apply IH].
  unfold first_at.
  destruct (forallb _ _); [destruct (list_find _ _) as [[k ?]|]|destruct (Frame.column df label)];
    first [apply IH | by intros [= <- _]].
Qed.

Lemma factor_err (o : options) (labels : gmap string cell) (df : frame ixval)
    (e : exn) (l : gmap string cell) :
  factor parse_dt fmt_ns o labels df = (Err e, l) -> stage_exn e.
Proof.
  unfold factor. destruct (get_ts _ _ _ _ _) as [tcol|e'] eqn:Ets.
  2: { intros [= <- _]. by apply get_ts_err in Ets. }
  destruct (factor_tags _ _ _) as [[df2|e'] l2] eqn:Hft.
  2: { intros [= <- _]. by apply factor_tags_err in Hft. }
  destruct (negb _); [by intros [= <- _]|].
  destruct (_ =? _)%nat; [|discriminate].
  unfold first_at.
  destruct (forallb _ _); [destruct (list_find _ _) as [[k ?]|]|destruct (Frame.column df2 "time")];
    first [discriminate | by intros [= <- _]].
Qed.

Lemma df_to_indb_ok (o : options) (df : frame ixval) (b : batch) :
  fst (df_to_indb parse_dt fmt_ns o df) = Ok b ->
  exists ts df' l, factor parse_dt fmt_ns o (init_labels o) (prepare o df) = (Ok (ts, df'), l) /\
    b_points b = emit o l df' /\ b_points b <> [] /\ b_timestamp b = ts /\
    b_tags b = (if bool_decide (l = ∅) then None else Some (Py.str_map l)).
Proof.
  unfold df_to_indb.
  case_bool_decide; [discriminate|].
  case_bool_decide; [discriminate|].
  destruct (factor _ _ _ _ _) as [[[ts df']|e] l]; simpl; [|discriminate].
  case_bool_decide; [discriminate|].
  intros [= <-]. simpl. eauto 10.
Qed.

(** Every point of a successful encode is the point of one cell of the
    caller's table. *)
Lemma points_from_cells (o : options) (df : frame ixval) (b : batch) (p : point) :
  Frame.wf df -> fst (df_to_indb parse_dt fmt_ns o df) = Ok b -> p ∈ b_points b ->
  exists r c0 v, r ∈ rows df /\ (c0, Some v) ∈ Frame.items (columns df) (snd r) /\
    column_name o c0 <> "time" /\ Py.is_null (Some v) true = false /\
    is_private (o_subset o) (column_name o c0) = false /\
    p_name p = String.append (norm_ns (o_ns o)) (column_name o c0) /\
    p_fields p = {[ "value" := v ]}.
Proof.
  intros Hwf Hok Hp.
  apply df_to_indb_ok in Hok as (ts & df' & l & Hf & Hpts & _ & _ & _).
  rewrite Hpts in Hp.
  apply emit_in in Hp as (r' & c & v & ts' & ml & Hr' & Hcv & Hfp).
  apply field_point_spec in Hfp as (Hct & Hnull & Hpriv & Hname & Hfields & _).
  apply factor_back in Hf as [_ Hb]; [|by apply wf_prepare].
  destruct (Hb r' Hr') as (r1 & Hr1 & _ & Hi1).
  apply Hi1 in Hcv; [|done].
  destruct (prepare_back o df r1 Hwf Hr1) as (r & Hr & _ & Hi).
  apply Hi in Hcv as (c0 & -> & Hc0).
  exists r, c0, v. repeat split; done.
Qed.

Lemma df_to_indb_err (o : options) (df : frame ixval) (e : exn) :
  fst (df_to_indb parse_dt fmt_ns o df) = Err e ->
  e = InfluxDBEmpty "Empty sensor data" \/ stage_exn e.
Proof.
  unfold df_to_indb.
  case_bool_decide; [intros [= <-]; by left|].
  case_bool_decide; [intros [= <-]; by left|].
  destruct (factor _ _ _ _ _) as [[[ts df']|e'] l] eqn:Hf; simpl.
  - case_bool_decide; [intros [= <-]; by left|discriminate].
  - intros [= <-]. right. by apply factor_err in Hf.
Qed.







(** The time and factoring stages succeed on a datetime-indexed frame
    when the precision is a numpy unit (or [strtime] is set) and no
    in-dataframe label is called [time]. *)
Section TimeIndexed.

Variable o : options.
Hypothesis Hunit : o_strtime o = true \/ unit_as (o_precision o) <> None.
Hypothesis Htime : assoc (inlabels_of o) "time" = None.









End TimeIndexed.

(** Forwards: a cell of a row of the argument is a cell of one row of the
    result, under the same column name (or its renamed form). *)












End Stages.


End EncodeFacts.

(** ** [indb_io] and the callers of [indb_pd] *)

Module IoFacts.
Import Io.

Lemma pv_truthy_of (x : option string) : pv_truthy (pv_of x) = opt_truthy x.
Proof. by destruct x. Qed.

Lemma opt_truthy_some (x : option string) : opt_truthy x = true -> x = Some (default "" x).
Proof. destruct x; simpl; [done|discriminate]. Qed.

Lemma pv_of_truthy (x : option string) : opt_truthy x = true -> pv_of x = PStr (default "" x).
Proof. intros H%opt_truthy_some. by rewrite H. Qed.

Ltac split_let :=
  lazymatch goal with |- context [match ?t with pair _ _ => _ end] => destruct t as [?q ?w] eqn:?Hqw end.

Lemma auth_no_credentials (username password url qurl wurl : option string) (port : Z) :
  Io.opt_truthy username = false \/ Io.opt_truthy password = false ->
  Io.get_auth_indb username password url qurl wurl port =
  Err (InfluxDBAuthError "Authentication parameters not specified").
Proof.
  intros H. unfold Io.get_auth_indb. split_let.
  unfold Io.get_truthy. rewrite lookup_insert_eq, lookup_insert_ne by done.
  rewrite lookup_insert_eq, !pv_truthy_of.
  by destruct H as [-> | ->]; [|rewrite orb_true_r].
Qed.

Lemma auth_urls (username password url qurl wurl : option string) (port : Z)
    (params : gmap string pval) :
  Io.get_auth_indb username password url qurl wurl port = Ok params ->
  params !! "u" = Some (Io.pv_of username) /\ params !! "p" = Some (Io.pv_of password) /\
  params !! "qurl" = Some (PStr (if Io.opt_truthy qurl then default "" qurl
                                 else if Io.opt_truthy url then Io.url_at (default "" url) port "/query"
                                 else "http://localhost:8086/query")) /\
  params !! "wurl" = Some (PStr (if Io.opt_truthy wurl then default "" wurl
                                 else if Io.opt_truthy url then Io.url_at (default "" url) port "/write"
                                 else "http://localhost:8086/write")) /\
  (forall k, k <> "u" -> k <> "p" -> k <> "qurl" -> k <> "wurl" -> params !! k = None).
Proof.
  unfold Io.get_auth_indb. split_let.
  destruct (negb (Io.get_truthy _ "u") || negb (Io.get_truthy _ "p")); [discriminate|]. intros [= <-].
  assert (Hq : Io.pv_of (if Io.opt_truthy q then q else Some "http://localhost:8086/query") =
               PStr (if Io.opt_truthy qurl then default "" qurl
                     else if Io.opt_truthy url then Io.url_at (default "" url) port "/query"
                     else "http://localhost:8086/query") /\
               Io.pv_of (if Io.opt_truthy w then w else Some "http://localhost:8086/write") =
               PStr (if Io.opt_truthy wurl then default "" wurl
                     else if Io.opt_truthy url then Io.url_at (default "" url) port "/write"
                     else "http://localhost:8086/write")).
  { assert (Hat : forall u path, Io.opt_truthy (Some (Io.url_at u port path)) = true)
      by (intros u path; unfold Io.url_at; by destruct u).
    destruct url as [u|]; [destruct (Io.opt_truthy (Some u)) eqn:Hu|];
      injection Hqw as <- <-; rewrite ?Hu;
      destruct (Io.opt_truthy qurl) eqn:Hq1; destruct (Io.opt_truthy wurl) eqn:Hw1;
      rewrite ?Hq1, ?Hw1, ?Hat; split; first [reflexivity | by apply pv_of_truthy]. }
  destruct Hq as [Hq Hw].
  split; [by rewrite lookup_insert_eq|].
  split; [by rewrite lookup_insert_ne, lookup_insert_eq|].
  split; [by rewrite 2!lookup_insert_ne, lookup_insert_eq, Hq|].
  split; [by rewrite 3!lookup_insert_ne, lookup_singleton_eq, Hw|].
  intros k H1 H2 H3 H4. rewrite !lookup_insert_ne by congruence.
  by rewrite lookup_singleton_ne by congruence.
Qed.

Lemma query_request_spec (auth : gmap string pval) (query : string)
    (database : option string) (chunked : bool) (url : pval) :
  auth !! "qurl" = Some url ->
  exists params, Io.query_request auth query database chunked = Ok (url, params) /\
    params !! "q" = Some (PStr query) /\
    params !! "db" = (if Io.opt_truthy database then Some (Io.pv_of database) else auth !! "db") /\
    params !! "chunked" = (if chunked then Some (PBool true) else auth !! "chunked") /\
    params !! "qurl" = None /\ params !! "wurl" = None /\
    (forall k, k ∉ ["q"; "db"; "chunked"; "qurl"; "wurl"] -> params !! k = auth !! k).
Proof.
  intros Hq. unfold Io.query_request.
  destruct chunked, (Io.opt_truthy database);
    (rewrite lookup_delete_ne by done; rewrite ?lookup_insert_ne by done; rewrite Hq);
    (eexists; split; [reflexivity|]);
    (split; [by simpl_map by done|]);
    (split; [by simpl_map by done|]);
    (split; [by simpl_map by done|]);
    (split; [by simpl_map by done|]);
    (split; [by simpl_map by done|]);
    intros k Hk; rewrite !not_elem_of_cons in Hk; destruct_and! Hk;
    simpl_map by congruence; done.
Qed.

End IoFacts.


Module RespFacts.
Import Io.

Lemma response_error_loop_first (i : nat) :
  forall (chunks : list chunk) (i0 : nat) error idx ch e,
  chunks !! i = Some ch -> c_error ch = Some e -> e <> "" ->
  (forall k chk, (k < i)%nat -> chunks !! k = Some chk -> opt_truthy (c_error chk) = false) ->
  response_error_loop i0 chunks error idx = (Some e, Some (i0 + i)%nat).
Proof.
  induction i as [|i IH]; intros [|ch0 chunks] i0 error idx ch e Hi He Hne Hprev; try discriminate.
  - injection Hi as ->. simpl. rewrite He. unfold opt_truthy.
    destruct (String.eqb e "") eqn:E; [apply String.eqb_eq in E; congruence|].
    simpl. by rewrite Nat.add_0_r.
  - simpl. rewrite (Hprev 0%nat ch0) by (done || lia).
    rewrite (IH chunks (S i0) (c_error ch0) (Some i0) ch e) by
      (done || (intros k chk Hk Hc; apply (Hprev (S k)); [lia|done])).
    do 2 f_equal. lia.
Qed.

Lemma response_error_loop_none (cs : list chunk) :
  forall (last : chunk) (i0 : nat) error idx,
  Forall (fun ch => opt_truthy (c_error ch) = false) (app cs [last]) ->
  response_error_loop i0 (app cs [last]) error idx = (c_error last, Some (i0 + List.length cs)%nat).
Proof.
  induction cs as [|ch cs IH]; intros last i0 error idx Hall; simpl in *.
  - inversion Hall as [|? ? Hl _]; subst. rewrite Hl. simpl. by rewrite Nat.add_0_r.
  - inversion Hall as [|? ? Hc Hall']; subst. rewrite Hc.
    rewrite IH by done. do 2 f_equal. lia.
Qed.

Lemma response_error_loop_nil (i0 : nat) error idx :
  response_error_loop i0 [] error idx = (error, idx).
Proof. done. Qed.

End RespFacts.

Module QueryFacts.
Import Io.

Lemma io_error_loop_first (i : nat) :
  forall (results : list chunk) (cnt : nat) error ch e,
  results !! i = Some ch -> c_error ch = Some e -> e <> "" ->
  (forall k chk, (k < i)%nat -> results !! k = Some chk -> opt_truthy (c_error chk) = false) ->
  io_error_loop cnt results error =
  Some (String.append e (if (cnt + i =? 0)%nat then "" else String.append " query: " (PyStr.of_nat (cnt + i)))).
Proof.
  induction i as [|i IH]; intros [|ch0 results] cnt error ch e Hi He Hne Hprev; try discriminate.
  - injection Hi as ->. simpl. rewrite He. unfold opt_truthy.
    destruct (String.eqb e "") eqn:E; [apply String.eqb_eq in E; congruence|].
    simpl. by rewrite Nat.add_0_r.
  - simpl. rewrite (Hprev 0%nat ch0) by (done || lia).
    rewrite (IH results (S cnt) (c_error ch0) ch e) by
      (done || (intros k chk Hk Hc; apply (Hprev (S k)); [lia|done])).
    by rewrite Nat.add_succ_r.
Qed.

Lemma query_errors_first (i : nat) :
  forall (data : list chunk) (i0 : nat) ch e,
  data !! i = Some ch -> c_error ch = Some e -> e <> "" ->
  (forall k chk, (k < i)%nat -> data !! k = Some chk -> opt_truthy (c_error chk) = false) ->
  query_errors i0 data = Some (Classify.raise_error e (Some (i0 + i)%nat) 200).
Proof.
  induction i as [|i IH]; intros [|ch0 data] i0 ch e Hi He Hne Hprev; try discriminate.
  - injection Hi as ->. simpl. rewrite He. unfold opt_truthy.
    destruct (String.eqb e "") eqn:E; [apply String.eqb_eq in E; congruence|].
    simpl. by rewrite Nat.add_0_r.
  - simpl.
    assert (Hr : query_errors (S i0) data = Some (Classify.raise_error e (Some (i0 + S i)%nat) 200)).
    { rewrite Nat.add_succ_r, <- Nat.add_succ_l.
      apply (IH data (S i0) ch e); [done|done|done|].
      intros k chk Hk Hc. apply (Hprev (S k)); [lia|done]. }
    pose proof (Hprev 0%nat ch0 ltac:(lia) eq_refl) as H0.
    destruct (c_error ch0) as [e0|]; [|done].
    simpl in H0. by rewrite H0.
Qed.

(** The common path of [query_indb] up to the decoding of a 200
    response that is not chunked. *)
Lemma query_indb_200 (http_get : pval -> gmap string pval -> result http_response)
    (raw_decode : string -> option (http_json * nat)) (auth : gmap string pval)
    (query : string) (database : option string) (raise_error : bool)
    (url : pval) (params : gmap string pval) (resp : http_response) (j : http_json) :
  get_truthy auth "u" = true -> get_truthy auth "p" = true ->
  query_request auth query database false = Ok (url, params) ->
  http_get url params = Ok resp -> status_code resp = 200%Z -> json resp = Some j ->
  query_indb http_get raw_decode auth query database false raise_error =
    match j_results j with
    | None => Err (KeyError "results")
    | Some data =>
        if negb raise_error then Ok (QResults data) else
        match query_errors 0 data with Some e => Err e | None => Ok (QResults data) end
    end.
Proof.
  intros Hu Hp Hq Hg Hs Hj. unfold query_indb. rewrite Hu, Hp, Hq. simpl.
  rewrite Hg. simpl. rewrite Hs. simpl. by rewrite Hj.
Qed.

Lemma decode_rows_nil (parse_dt : string -> option Z) (o : doptions) sdfs :
  decode_rows parse_dt o [] sdfs = Ok sdfs.
Proof. done. Qed.

Lemma decode_chunks_no_series (parse_dt : string -> option Z) (o : doptions) :
  forall (chunks : list chunk) (i : nat) sdfs sdfs',
  Forall (fun ch => c_series ch = []) chunks ->
  decode_chunks parse_dt o i chunks sdfs = Ok sdfs' -> sdfs' = sdfs.
Proof.
  induction chunks as [|ch chunks IH]; intros i sdfs sdfs' Hall H; simpl in H.
  - by injection H.
  - inversion Hall as [|? ? Hs Hall']; subst. rewrite Hs in H.
    destruct (c_error ch) as [e|]; [destruct (negb (String.eqb e "")); [discriminate|]|];
      simpl in H; by apply IH in H.
Qed.

End QueryFacts.

Module RecordFacts.

(** Without keywords, [df_to_indb] runs with its defaults. *)
Lemma rk_opts_nil (kw : rkwargs) : rk_conv kw = [] -> rk_opts kw = default_options.
Proof. unfold rk_opts. by intros ->. Qed.

Lemma rec_get_set_eq (d : record) (k : string) (x : cell) : rec_get (rec_set d k x) k = Some x.
Proof.
  induction d as [|[k' y] d IH]; simpl; [by rewrite String.eqb_refl|].
  destruct (String.eqb k' k) eqn:E; simpl; [by rewrite E|by rewrite E].
Qed.

Lemma rec_get_set_ne (d : record) (k k' : string) (x : cell) :
  k <> k' -> rec_get (rec_set d k x) k' = rec_get d k'.
Proof.
  intros Hne. induction d as [|[k0 y] d IH]; simpl.
  - destruct (String.eqb k k') eqn:E; [apply String.eqb_eq in E; congruence|done].
  - destruct (String.eqb k0 k) eqn:E; simpl.
    + apply String.eqb_eq in E as ->.
      destruct (String.eqb k k') eqn:E'; [apply String.eqb_eq in E'; congruence|done].
    + by destruct (String.eqb k0 k').
Qed.

Lemma frame_of_records_wf (data : list record) : Frame.wf (frame_of_records data).
Proof.
  unfold Frame.wf, frame_of_records. simpl.
  apply Forall_forall. intros r Hr.
  apply list_elem_of_lookup in Hr as [i Hi].
  rewrite list_lookup_imap in Hi.
  destruct (data !! i); simpl in Hi; [|discriminate].
  injection Hi as <-. simpl. by rewrite length_map.
Qed.

Lemma frame_of_records_row (data : list record) (r : ixval * list cell) :
  r ∈ rows (frame_of_records data) ->
  exists d, d ∈ data /\ snd r = map (fun c => default None (rec_get d c)) (columns (frame_of_records data)).
Proof.
  unfold frame_of_records. simpl. intros Hr.
  apply list_elem_of_lookup in Hr as [i Hi].
  rewrite list_lookup_imap in Hi.
  destruct (data !! i) as [d|] eqn:Hd; simpl in Hi; [|discriminate].
  injection Hi as <-. exists d. split; [by eapply list_elem_of_lookup_2|done].
Qed.

Lemma items_map_in (cols : list string) (f : string -> cell) (c : string) (x : cell) :
  (c, x) ∈ Frame.items cols (map f cols) -> x = f c.
Proof.
  unfold Frame.items. induction cols as [|c0 cols IH]; simpl; [by intros ?%elem_of_nil|].
  intros [[= -> ->]|H]%elem_of_cons; [done|by apply IH].
Qed.

End RecordFacts.

Module SortFacts.



End SortFacts.

Module GetColFacts.

Lemma get_col_loop_spec (col : string) (l : list string) :
  forall ncol prev,
  get_col_loop l col ncol prev =
    let m := foldr (fun ns acc => if negb (String.eqb ns "") && PyStr.startswith col ns
                                  then Nat.max (String.length ns) acc else acc) 0%nat l in
    if (String.length prev <? m)%nat then PyStr.drop m col else ncol.
Proof.
  induction l as [|ns l IH]; intros ncol prev; simpl.
  - destruct (String.length prev <? 0)%nat eqn:E; [apply Nat.ltb_lt in E; lia|done].
  - destruct (String.eqb ns "") eqn:Hns; simpl; [apply IH|].
    set (m := foldr _ 0%nat l).
    destruct (PyStr.startswith col ns) eqn:Hs; rewrite ?andb_true_r, ?andb_false_r; simpl.
    + destruct (String.length prev <? String.length ns)%nat eqn:Hlt; simpl.
      * rewrite IH. cbv zeta. fold m.
        apply Nat.ltb_lt in Hlt.
        destruct (String.length ns <? m)%nat eqn:E1;
          [apply Nat.ltb_lt in E1|apply Nat.ltb_ge in E1];
          (destruct (String.length prev <? Nat.max (String.length ns) m)%nat eqn:E2;
            [apply Nat.ltb_lt in E2|apply Nat.ltb_ge in E2; lia]);
          f_equal; lia.
      * rewrite IH. cbv zeta. fold m. apply Nat.ltb_ge in Hlt.
        destruct (String.length prev <? m)%nat eqn:E1;
          [apply Nat.ltb_lt in E1|apply Nat.ltb_ge in E1].
        -- rewrite (proj2 (Nat.ltb_lt _ _)) by lia. f_equal. lia.
        -- rewrite (proj2 (Nat.ltb_ge _ _)) by lia. done.
    + apply IH.
Qed.

Lemma get_col_spec (all_ns : list string) (col : string) :
  get_col all_ns col =
    PyStr.drop (foldr (fun ns acc => if negb (String.eqb ns "") && PyStr.startswith col ns
                                     then Nat.max (String.length ns) acc else acc) 0%nat all_ns) col.
Proof.
  unfold get_col. rewrite get_col_loop_spec. cbv zeta. simpl.
  destruct (foldr _ 0%nat all_ns) as [|m]; done.
Qed.

Lemma longest_perm (col : string) (l l' : list string) :
  l ≡ₚ l' ->
  foldr (fun ns acc => if negb (String.eqb ns "") && PyStr.startswith col ns
                       then Nat.max (String.length ns) acc else acc) 0%nat l =
  foldr (fun ns acc => if negb (String.eqb ns "") && PyStr.startswith col ns
                       then Nat.max (String.length ns) acc else acc) 0%nat l'.
Proof.
  induction 1 as [|x l l' _ IH|x y l|l l' l'' _ IH1 _ IH2]; simpl.
  - done.
  - by rewrite IH.
  - destruct (negb (String.eqb x "") && PyStr.startswith col x),
             (negb (String.eqb y "") && PyStr.startswith col y); lia.
  - by rewrite IH1, IH2.
Qed.

Lemma longest_ge (col : string) (l : list string) (ns : string) :
  ns ∈ l -> ns <> "" -> PyStr.startswith col ns = true ->
  (String.length ns <=
   foldr (fun ns acc => if negb (String.eqb ns "") && PyStr.startswith col ns
                        then Nat.max (String.length ns) acc else acc) 0%nat l)%nat.
Proof.
  intros Hin Hne Hs. induction l as [|x l IH]; [by apply elem_of_nil in Hin|].
  simpl. apply elem_of_cons in Hin as [<-|Hin].
  - rewrite Hs. destruct (String.eqb ns "") eqn:E; [apply String.eqb_eq in E; congruence|].
    simpl. lia.
  - specialize (IH Hin).
    destruct (negb (String.eqb x "") && PyStr.startswith col x); lia.
Qed.

Lemma longest_in (col : string) (l : list string) :
  let m := foldr (fun ns acc => if negb (String.eqb ns "") && PyStr.startswith col ns
                                then Nat.max (String.length ns) acc else acc) 0%nat l in
  m = 0%nat \/ exists ns, ns ∈ l /\ ns <> "" /\ PyStr.startswith col ns = true /\ String.length ns = m.
Proof.
  induction l as [|x l IH]; simpl; [by left|].
  destruct (String.eqb x "") eqn:Ex; simpl.
  - destruct IH as [IH|(ns & ? & ? & ? & ?)]; [by left|right; exists ns; rewrite elem_of_cons; eauto].
  - destruct (PyStr.startswith col x) eqn:Hs.
    + set (m := foldr _ 0%nat l) in *.
      destruct (Nat.max_spec (String.length x) m) as [[Hlt ->]|[Hge ->]].
      * destruct IH as [IH|(ns & ? & ? & ? & ?)]; [lia|].
        right; exists ns; rewrite elem_of_cons; eauto.
      * right. exists x. split; [by apply elem_of_cons; left|].
        split; [intros ->; discriminate|done].
    + destruct IH as [IH|(ns & ? & ? & ? & ?)]; [by left|right; exists ns; rewrite elem_of_cons; eauto].
Qed.

End GetColFacts.

Module RoundTripFacts.

Lemma mask_tail_seq {A} (l : list A) (k : nat) :
  (1 <= k)%nat -> Frame.mask (map (fun j => negb (j =? 0)%nat) (seq k (length l))) l = l.
Proof.
  revert k. induction l as [|x l IH]; intros k Hk; simpl; [done|].
  destruct k as [|k]; [lia|]. simpl. f_equal. apply IH. lia.
Qed.

Lemma mask_drop_head {A} (x : A) (l : list A) :
  Frame.mask (map (fun j => negb (j =? 0)%nat) (seq 0 (length (x :: l)))) (x :: l) = l.
Proof. simpl. apply mask_tail_seq. lia. Qed.

















Section WithParse.
Variable parse_dt : string -> option Z.
Variable render_time : option val -> string.






End WithParse.

End RoundTripFacts.

(** ** Claims *)

(** C6: for every namespace [ns] (its candidates being [get_parts ns]) and
    every column name, [filter_ns] removes exactly the longest candidate
    that is a prefix of the name, and leaves a name no candidate prefixes
    unchanged; with the candidates ["a.b.c."; "b.c."; "c."] of namespace
    ["a.b.c."], the column ["a.b.c.temp"] becomes ["temp"]. *)
Theorem filter_ns_strips_longest (ns sensor : string) :
  ((Forall (fun p => String.prefix p sensor = false) (Ns.get_parts ns) /\
    Ns.filter_ns (Ns.get_parts ns) sensor = sensor)
   \/ (exists p, In p (Ns.get_parts ns) /\ String.prefix p sensor = true /\
        Ns.filter_ns (Ns.get_parts ns) sensor = PyStr.drop (String.length p) sensor /\
        forall q, In q (Ns.get_parts ns) -> String.prefix q sensor = true ->
                  (String.length q <= String.length p)%nat))
  /\ Ns.get_parts "a.b.c." = ["a.b.c."; "b.c."; "c."]
  /\ Ns.filter_ns (Ns.get_parts "a.b.c.") "a.b.c.temp" = "temp".
Proof.
  split; [|split; reflexivity].
  destruct (NsFacts.get_parts_sorted ns) as [Hs Hn].
  apply NsFacts.loop_longest; done.
Qed.

(** C3 (counterexample): the text "unknown field foo" contains "unknown"
    and "field", yet [_raise_error] raises a plain [QueryError]. *)
Lemma raise_error_unknown_field_only :
  PyStr.contains "unknown" (PyStr.lower "unknown field foo") = true /\
  PyStr.contains "field" (PyStr.lower "unknown field foo") = true /\
  Classify.raise_error "unknown field foo" None 200 = QueryError "unknown field foo".
Proof. split; [|split]; reflexivity. Qed.

(** C3 (as the code has it): the class of the exception depends only on
    the lowered error text (not on its case, nor on the chunk index and
    status code prefixed to the message); it is [FieldNotFound] exactly
    when the lowered text contains all three of "unknown", "field" and
    "tag" and does not contain both "measurement" and "not found". *)
Theorem raise_error_field_not_found (e : string) (idx : option nat) (code : Z) :
  (Classify.kind_of (Classify.raise_error e idx code) = Classify.KFieldNotFound <->
     (PyStr.contains "measurement" (PyStr.lower e) && PyStr.contains "not found" (PyStr.lower e) = false /\
      PyStr.contains "unknown" (PyStr.lower e) = true /\
      PyStr.contains "field" (PyStr.lower e) = true /\
      PyStr.contains "tag" (PyStr.lower e) = true))
  /\ (forall (e' : string) (idx' : option nat) (code' : Z), PyStr.lower e' = PyStr.lower e ->
        Classify.kind_of (Classify.raise_error e' idx' code') =
        Classify.kind_of (Classify.raise_error e idx code)).
Proof.
  split.
  - rewrite ClassifyFacts.kind_of_raise_error. unfold Classify.decide_kind.
    destruct (PyStr.contains "measurement" (PyStr.lower e)),
             (PyStr.contains "not found" (PyStr.lower e)),
             (PyStr.contains "unknown" (PyStr.lower e)),
             (PyStr.contains "field" (PyStr.lower e)),
             (PyStr.contains "tag" (PyStr.lower e)); simpl; intuition congruence.
  - intros e' idx' code' H. rewrite !ClassifyFacts.kind_of_raise_error. by rewrite H.
Qed.




(** C4 (the code's behaviour): [df_to_indb] does not depend on its
    [zero_null] argument; with [zero_null=False] the zero cell [x] of
    [df_zero_x] still yields no point, because the field loop calls
    [is_null(val, zero_null=True)]. *)
Theorem df_to_indb_zero_null_ignored :
  (forall parse_dt fmt_ns o df b,
     df_to_indb parse_dt fmt_ns (with_zero_null o b) df = df_to_indb parse_dt fmt_ns o df) /\
  fst (df_to_indb no_parse no_fmt (enc_options ∅ "" false "ms") df_zero_x) =
    Ok (mkBatch [mkPoint "y" {[ "value" := VInt 1 ]} (Some "ms") None None]
                "ms" None None (Some (VInt 1)) None) /\
  fst (df_to_indb no_parse no_fmt (enc_options ∅ "" false "ms") df_all_zero) =
    Err (InfluxDBEmpty "Empty sensor data").
Proof.
  split; [|split; vm_compute; reflexivity].
  intros parse_dt fmt_ns [] df b. reflexivity.
Qed.

(** C7 (the code's behaviour): the caller's label [pk = X] does not stop
    the promotion check, which looks the internal key [_pk] up in
    [labels]. With a [pk] column that varies, the batch carries the tag
    [pk = X] while each point carries its own [pk] tag; with a [pk] column
    of one value, that value replaces the caller's [pk]. *)
Theorem df_to_indb_pk_not_pinned :
  fst (df_to_indb no_parse no_fmt (enc_options {[ "pk" := Some (VStr "X") ]} "" true "ms") df_pk_varies) =
    Ok (mkBatch [mkPoint "x" {[ "value" := VInt 1 ]} (Some "ms") (Some (VInt 1)) (Some {[ "pk" := "Y" ]});
                 mkPoint "x" {[ "value" := VInt 2 ]} (Some "ms") (Some (VInt 2)) (Some {[ "pk" := "Z" ]})]
                "ms" None None None (Some {[ "pk" := "X" ]})) /\
  fst (df_to_indb no_parse no_fmt (enc_options {[ "pk" := Some (VStr "X") ]} "" true "ms") df_pk_shared) =
    Ok (mkBatch [mkPoint "x" {[ "value" := VInt 1 ]} (Some "ms") (Some (VInt 1)) None;
                 mkPoint "x" {[ "value" := VInt 2 ]} (Some "ms") (Some (VInt 2)) None]
                "ms" None None None (Some {[ "pk" := "Y" ]})).
Proof. split; vm_compute; reflexivity. Qed.

(** C9 (the code's behaviour): a non-empty caller [labels] dict is the
    dict the call writes to: after encoding a table whose [pk] column has
    one value, the caller's dict has gained the key [pk]. *)
Theorem df_to_indb_mutates_labels :
  caller_labels_after no_parse no_fmt (enc_options {[ "a" := Some (VStr "b") ]} "" true "ms") df_pk_one_row =
    <[ "pk" := Some (VStr "P") ]> {[ "a" := Some (VStr "b") ]} /\
  caller_labels_after no_parse no_fmt (enc_options {[ "a" := Some (VStr "b") ]} "" true "ms") df_pk_one_row <>
    o_labels (enc_options {[ "a" := Some (VStr "b") ]} "" true "ms").
Proof.
  split; [vm_compute; reflexivity|].
  intros H. assert (H' := f_equal (fun m : gmap string cell => m !! "pk") H).
  vm_compute in H'. discriminate.
Qed.

(** C2 (counterexample): the columns [a.x] and [a.y] of one row, which a
    split at the first dot would send to one measurement [a], give two
    points named [a.x] and [a.y], each with the single field [value]. *)
Lemma df_to_indb_dotted_not_merged :
  fst (df_to_indb no_parse no_fmt (enc_options ∅ "" true "ms") df_dotted) =
    Ok (mkBatch [mkPoint "a.x" {[ "value" := VInt 1 ]} (Some "ms") None None;
                 mkPoint "a.y" {[ "value" := VInt 2 ]} (Some "ms") None None]
                "ms" None None (Some (VInt 1)) None).
Proof. vm_compute. reflexivity. Qed.


(** C2 (as the code has it): the encoder resolves no measurement and merges
    no fields. Every point of a successful encode of a table (with one cell
    per column in each row) is the point of one non-null cell: its name is
    the normalised namespace followed by the name [c] the cell's column has
    after the renaming passes, [c] is not [time], and its field map is the
    single field [value] holding the cell's value. No call raises
    [InvalidData]. *)
Theorem df_to_indb_point_per_cell (parse_dt : string -> option Z) (fmt_ns : Z -> string)
    (o : options) (df : frame ixval) :
  (forall m, fst (df_to_indb parse_dt fmt_ns o df) <> Err (InvalidData m)) /\
  (Frame.wf df -> forall b p, fst (df_to_indb parse_dt fmt_ns o df) = Ok b -> p ∈ b_points b ->
     exists r c0 v, r ∈ rows df /\ (c0, Some v) ∈ Frame.items (columns df) (snd r) /\
       column_name o c0 <> "time" /\
       p_name p = String.append (norm_ns (o_ns o)) (column_name o c0) /\
       p_fields p = {[ "value" := v ]}).
Proof.
  split.
  - intros m H. apply EncodeFacts.df_to_indb_err in H as [H|H]; [discriminate|exact H].
  - intros Hwf b p Hb Hp.
    destruct (EncodeFacts.points_from_cells parse_dt fmt_ns o df b p Hwf Hb Hp)
      as (r & c0 & v & Hr & Hc & Ht & _ & _ & Hname & Hf).
    exists r, c0, v. auto.
Qed.

(** A run of [df_to_indb_point_per_cell]: the point [a.x] of [df_dotted]
    comes from a cell holding [1]. *)
Lemma df_to_indb_point_per_cell_witness :
  exists r c0 v, r ∈ rows df_dotted /\ (c0, Some v) ∈ Frame.items (columns df_dotted) (snd r) /\
    p_fields (ms_point "a.x" (VInt 1)) = {[ "value" := v ]}.
Proof.
  destruct (proj2 (df_to_indb_point_per_cell no_parse no_fmt (enc_options ∅ "" true "ms") df_dotted)
              ltac:(repeat constructor)
              (mkBatch [ms_point "a.x" (VInt 1); ms_point "a.y" (VInt 2)]
                       "ms" None None (Some (VInt 1)) None)
              (ms_point "a.x" (VInt 1))
              ltac:(vm_compute; reflexivity) ltac:(left))
    as (r & c0 & v & Hr & Hc & _ & _ & Hf).
  exists r, c0, v. split; [exact Hr|]. split; [exact Hc|exact Hf].
Defined.









(* ------------------------------------------------------------------ *)
(** ** Further properties of [indb_io] and [indb_pd] *)

(** [get_auth_indb] raises [InfluxDBAuthError] whenever the user name or
    the password is missing or empty, whatever the URLs. *)
Theorem get_auth_indb_no_credentials (username password url qurl wurl : option string) (port : Z) :
  Io.opt_truthy username = false \/ Io.opt_truthy password = false ->
  Io.get_auth_indb username password url qurl wurl port =
  Err (InfluxDBAuthError "Authentication parameters not specified").
Proof. apply IoFacts.auth_no_credentials. Qed.

(** A run of [get_auth_indb_no_credentials]. *)
Lemma get_auth_indb_no_credentials_witness :
  Io.get_auth_indb (Some "admin") None None None None 8086 =
  Err (InfluxDBAuthError "Authentication parameters not specified").
Proof. apply get_auth_indb_no_credentials. right. reflexivity. Defined.

(** The parameters [get_auth_indb] returns hold exactly [u], [p], [qurl]
    and [wurl]. Each URL is the one given if it is non-empty, else
    [url:port/query] or [url:port/write] when [url] is given, else the
    localhost default on port 8086. *)
Theorem get_auth_indb_urls (username password url qurl wurl : option string) (port : Z)
    (params : gmap string pval) :
  Io.get_auth_indb username password url qurl wurl port = Ok params ->
  params !! "u" = Some (Io.pv_of username) /\ params !! "p" = Some (Io.pv_of password) /\
  params !! "qurl" = Some (PStr (if Io.opt_truthy qurl then default "" qurl
                                 else if Io.opt_truthy url then Io.url_at (default "" url) port "/query"
                                 else "http://localhost:8086/query")) /\
  params !! "wurl" = Some (PStr (if Io.opt_truthy wurl then default "" wurl
                                 else if Io.opt_truthy url then Io.url_at (default "" url) port "/write"
                                 else "http://localhost:8086/write")) /\
  (forall k, k <> "u" -> k <> "p" -> k <> "qurl" -> k <> "wurl" -> params !! k = None).
Proof. apply IoFacts.auth_urls. Qed.

(** A run of [get_auth_indb_urls]. *)
Lemma get_auth_indb_urls_witness :
  auth_db !! "qurl" = Some (PStr "http://db:8086/query") /\
  auth_db !! "wurl" = Some (PStr "http://db:8086/write").
Proof.
  destruct (get_auth_indb_urls (Some "admin") (Some "password") (Some "http://db") None None 8086 auth_db)
    as (_ & _ & Hq & Hw & _); [vm_compute; reflexivity|].
  rewrite Hq, Hw. split; reflexivity.
Defined.

(** The parameters [get_auth_indb] returns pass the credential check of
    [query_indb] and hold both URLs. [push_indb] posts to [wurl] with
    only [u] and [p] as parameters. [query_indb] gets from [qurl] and
    never sends either URL as a parameter. *)
Theorem get_auth_indb_requests (username password url qurl wurl : option string) (port : Z)
    (auth : gmap string pval) :
  Io.get_auth_indb username password url qurl wurl port = Ok auth ->
  Io.get_truthy auth "u" = true /\ Io.get_truthy auth "p" = true /\
  (forall gzip data compress, exists req,
     Io.push_request gzip auth data compress = Ok req /\
     Some (Io.pr_url req) = auth !! "wurl" /\
     Io.pr_params req = <["u" := Io.pv_of username]> {[ "p" := Io.pv_of password ]}) /\
  (forall query database chunked, exists params,
     Io.query_request auth query database chunked = Ok (default PNone (auth !! "qurl"), params) /\
     params !! "qurl" = None /\ params !! "wurl" = None).
Proof.
  intros Hok.
  pose proof (IoFacts.auth_urls _ _ _ _ _ _ _ Hok) as (Hu & Hp & Hq & Hw & Hk).
  assert (Hc : Io.opt_truthy username = true /\ Io.opt_truthy password = true).
  { destruct (Io.opt_truthy username) eqn:E1, (Io.opt_truthy password) eqn:E2; try done;
      rewrite IoFacts.auth_no_credentials in Hok by auto; discriminate. }
  destruct Hc as [Hcu Hcp].
  split; [by unfold Io.get_truthy; rewrite Hu, IoFacts.pv_truthy_of|].
  split; [by unfold Io.get_truthy; rewrite Hp, IoFacts.pv_truthy_of|].
  split.
  - intros gzip data compress. unfold Io.push_request.
    rewrite lookup_delete_ne, Hw by done. eexists; split; [reflexivity|]. split; [done|]. simpl.
    apply map_eq. intros k.
    destruct (decide (k = "u")) as [->|]; [by simpl_map by done|].
    destruct (decide (k = "p")) as [->|]; [by simpl_map by done|].
    destruct (decide (k = "qurl")) as [->|]; [by simpl_map by done|].
    destruct (decide (k = "wurl")) as [->|]; [by simpl_map by done|].
    simpl_map by done. rewrite Hk by done. done.
  - intros query database chunked.
    destruct (IoFacts.query_request_spec auth query database chunked _ Hq) as (params & Hr & _ & _ & _ & H1 & H2 & _).
    rewrite Hq. eauto.
Qed.

(** A run of [get_auth_indb_requests]. *)
Lemma get_auth_indb_requests_witness :
  exists req, Io.push_request no_gzip auth_db (Io.PRaw "x") false = Ok req /\
    Io.pr_params req = <["u" := PStr "admin"]> {[ "p" := PStr "password" ]}.
Proof.
  destruct (get_auth_indb_requests (Some "admin") (Some "password") (Some "http://db") None None 8086 auth_db)
    as (_ & _ & Hpush & _); [vm_compute; reflexivity|].
  destruct (Hpush no_gzip (Io.PRaw "x") false) as (req & H1 & _ & H3).
  exists req. split; [exact H1|exact H3].
Defined.

(** [query_indb] sends its GET to [auth['qurl']]. Its parameters are
    [auth] without [qurl] and [wurl], plus [q], plus [db] when a database
    is given and [chunked] when chunked. *)
Theorem query_request_params (auth : gmap string pval) (query : string)
    (database : option string) (chunked : bool) (url : pval) :
  auth !! "qurl" = Some url ->
  exists params, Io.query_request auth query database chunked = Ok (url, params) /\
    params !! "q" = Some (PStr query) /\
    params !! "db" = (if Io.opt_truthy database then Some (Io.pv_of database) else auth !! "db") /\
    params !! "chunked" = (if chunked then Some (PBool true) else auth !! "chunked") /\
    params !! "qurl" = None /\ params !! "wurl" = None /\
    (forall k, k ∉ ["q"; "db"; "chunked"; "qurl"; "wurl"] -> params !! k = auth !! k).
Proof. apply IoFacts.query_request_spec. Qed.

(** A run of [query_request_params]. *)
Lemma query_request_params_witness :
  exists params, Io.query_request auth_db "SELECT * FROM cpu" (Some "mydb") false =
    Ok (PStr "http://db:8086/query", params) /\ params !! "db" = Some (PStr "mydb").
Proof.
  destruct (query_request_params auth_db "SELECT * FROM cpu" (Some "mydb") false
              (PStr "http://db:8086/query")) as (params & Hr & _ & Hdb & _); [reflexivity|].
  exists params. split; [exact Hr|]. rewrite Hdb. reflexivity.
Defined.

(** Without a truthy [u] and [p] in [auth], [query_indb] raises
    [InfluxDBAuthError] before any request: the result does not depend
    on the server. *)
Theorem query_indb_no_credentials (auth : gmap string pval) (query : string)
    (database : option string) (chunked raise_error : bool) :
  Io.get_truthy auth "u" = false \/ Io.get_truthy auth "p" = false ->
  forall http_get raw_decode,
  Io.query_indb http_get raw_decode auth query database chunked raise_error =
  Err (InfluxDBAuthError "Authentication parameters not specified").
Proof.
  intros H http_get raw_decode. unfold Io.query_indb.
  by destruct H as [-> | ->]; [|rewrite orb_true_r].
Qed.

(** A run of [query_indb_no_credentials]. *)
Lemma query_indb_no_credentials_witness :
  Io.query_indb (get_const resp_ok_text) no_decode auth_no_password "SELECT * FROM cpu" None false true =
  Err (InfluxDBAuthError "Authentication parameters not specified").
Proof. apply query_indb_no_credentials. right. reflexivity. Defined.

(** With credentials but no [qurl] in [auth], [query_indb] raises
    [KeyError('qurl')] before any request. *)
Theorem query_indb_missing_qurl (auth : gmap string pval) (query : string)
    (database : option string) (chunked raise_error : bool) :
  Io.get_truthy auth "u" = true -> Io.get_truthy auth "p" = true -> auth !! "qurl" = None ->
  forall http_get raw_decode,
  Io.query_indb http_get raw_decode auth query database chunked raise_error = Err (KeyError "qurl").
Proof.
  intros Hu Hp Hq http_get raw_decode. unfold Io.query_indb, Io.query_request.
  rewrite Hu, Hp. simpl.
  rewrite lookup_delete_ne by done.
  destruct chunked, (Io.opt_truthy database); rewrite ?lookup_insert_ne by done; by rewrite Hq.
Qed.

(** A run of [query_indb_missing_qurl]. *)
Lemma query_indb_missing_qurl_witness :
  Io.query_indb (get_const resp_ok_text) no_decode auth_no_urls "SELECT * FROM cpu" None false true =
  Err (KeyError "qurl").
Proof. apply query_indb_missing_qurl; reflexivity. Defined.

(** With [compress=True], [push_indb] sends the same request whatever the
    data. It sets [data] to [None] before serialising it, so the body
    is the gzip of ["null"] and no JSON is sent. *)
Theorem push_indb_compress_drops_data (http_post : Io.post_request -> result Io.http_response)
    (gzip : string -> string) (auth : gmap string pval) (raise_error : bool) :
  (forall d1 d2, Io.push_indb http_post gzip auth d1 true raise_error =
                 Io.push_indb http_post gzip auth d2 true raise_error) /\
  (forall d req, Io.push_request gzip auth d true = Ok req ->
                 Io.pr_json req = None /\ Io.pr_data req = Some (gzip "null")).
Proof.
  split.
  - intros d1 d2. reflexivity.
  - intros d req. unfold Io.push_request. simpl.
    destruct (delete "qurl" auth !! "wurl"); [|discriminate]. by intros [= <-].
Qed.

(** With [raise_error=False], [push_indb] raises nothing on account of
    the response: its only exceptions are the [KeyError] of a missing
    [wurl] and the exception [requests.post] raises. *)
Theorem push_indb_no_raise_errors (http_post : Io.post_request -> result Io.http_response)
    (gzip : string -> string) (auth : gmap string pval) (data : Io.payload) (compress : bool)
    (e : exn) :
  Io.push_indb http_post gzip auth data compress false = Err e ->
  (auth !! "wurl" = None /\ e = KeyError "wurl") \/
  (exists req, Io.push_request gzip auth data compress = Ok req /\ http_post req = Err e).
Proof.
  unfold Io.push_indb. cbv [mbind result_bind bind].
  destruct (Io.push_request gzip auth data compress) as [req|e'] eqn:Hreq.
  - destruct (http_post req) as [resp|e'] eqn:Hp.
    + simpl. discriminate.
    + intros [= <-]. right. by exists req.
  - intros [= <-]. left. unfold Io.push_request in Hreq.
    rewrite lookup_delete_ne in Hreq by done.
    destruct (auth !! "wurl"); [discriminate|]. by injection Hreq as <-.
Qed.

(** A run of [push_indb_no_raise_errors]: [requests.post] rejects the
    payload. *)
Lemma push_indb_no_raise_errors_witness :
  Io.push_indb post_unserialisable no_gzip auth_db (Io.PRaw "x") false false =
    Err (TypeError "is not JSON serializable") /\
  ((auth_db !! "wurl" = None /\ TypeError "is not JSON serializable" = KeyError "wurl") \/
   (exists req, Io.push_request no_gzip auth_db (Io.PRaw "x") false = Ok req /\
      post_unserialisable req = Err (TypeError "is not JSON serializable"))).
Proof.
  split; [reflexivity|].
  apply (push_indb_no_raise_errors post_unserialisable no_gzip auth_db (Io.PRaw "x") false).
  reflexivity.
Defined.

(** [_raise_response_error] on a JSON response raises the error of the
    first result with a non-empty error, prefixed by the status and the
    chunk index. Its class is chosen from that error's text. *)
Theorem raise_response_error_first_chunk (r : Io.http_response) (j : Io.http_json)
    (cs : list chunk) (i : nat) (ch : chunk) (e : string) :
  Io.json r = Some j -> Io.j_results j = Some cs ->
  cs !! i = Some ch -> c_error ch = Some e -> e <> "" ->
  (forall k chk, (k < i)%nat -> cs !! k = Some chk -> Io.opt_truthy (c_error chk) = false) ->
  Io.raise_response_error r = Classify.raise_error e (Some i) (Io.status_code r) /\
  Classify.kind_of (Io.raise_response_error r) = Classify.decide_kind (PyStr.lower e).
Proof.
  intros Hj Hr Hi He Hne Hprev.
  assert (H : Io.raise_response_error r = Classify.raise_error e (Some i) (Io.status_code r)).
  { unfold Io.raise_response_error. rewrite Hj, Hr. simpl.
    by rewrite (RespFacts.response_error_loop_first i cs 0 (Io.j_error j) None ch e). }
  split; [done|]. rewrite H. apply ClassifyFacts.kind_of_raise_error.
Qed.

(** A run of [raise_response_error_first_chunk]. *)
Lemma raise_response_error_first_chunk_witness :
  Io.raise_response_error (resp_chunk_error 400) =
    Classify.raise_error "measurement not found: foo" (Some 1%nat) 400 /\
  Classify.kind_of (Io.raise_response_error (resp_chunk_error 400)) = Classify.KMeasurementNotFound.
Proof.
  destruct (raise_response_error_first_chunk (resp_chunk_error 400)
              (Io.mkJson None (Some [mkChunk None []; mkChunk (Some "measurement not found: foo") []]) None)
              [mkChunk None []; mkChunk (Some "measurement not found: foo") []] 1
              (mkChunk (Some "measurement not found: foo") []) "measurement not found: foo")
    as [H1 H2]; try reflexivity; [discriminate| |].
  - intros k chk Hk Hc. destruct k as [|k]; [injection Hc as <-; reflexivity|lia].
  - split; [exact H1|]. rewrite H2. vm_compute. reflexivity.
Defined.

(** When no result has an error, [_raise_response_error] still reports
    the last result: it raises [QueryError('<code>: <n-1>: None')] and
    drops the top-level [error] of the response. *)
Theorem raise_response_error_no_chunk_error (r : Io.http_response) (j : Io.http_json)
    (cs : list chunk) (last : chunk) :
  Io.json r = Some j -> Io.j_results j = Some (app cs [last]) ->
  Forall (fun ch => Io.opt_truthy (c_error ch) = false) (app cs [last]) ->
  Io.raise_response_error r =
    Classify.raise_error (Io.str_opt (c_error last)) (Some (List.length cs)) (Io.status_code r) /\
  Classify.kind_of (Io.raise_response_error r) = Classify.KQueryError.
Proof.
  intros Hj Hr Hall.
  assert (H : Io.raise_response_error r =
    Classify.raise_error (Io.str_opt (c_error last)) (Some (List.length cs)) (Io.status_code r)).
  { unfold Io.raise_response_error. rewrite Hj, Hr. simpl.
    by rewrite RespFacts.response_error_loop_none. }
  split; [done|]. rewrite H, ClassifyFacts.kind_of_raise_error.
  apply Forall_app in Hall as [_ Hl]. inversion Hl as [|? ? Hlast _]; subst.
  destruct (c_error last) as [s|]; [|reflexivity].
  simpl in Hlast. destruct (String.eqb s "") eqn:E; [|discriminate].
  apply String.eqb_eq in E as ->. reflexivity.
Qed.

(** A run of [raise_response_error_no_chunk_error]. *)
Lemma raise_response_error_no_chunk_error_witness :
  Io.raise_response_error resp_no_chunk_error = Classify.raise_error "None" (Some 0%nat) 400 /\
  Classify.kind_of (Io.raise_response_error resp_no_chunk_error) = Classify.KQueryError.
Proof.
  apply (raise_response_error_no_chunk_error resp_no_chunk_error
           (Io.mkJson (Some "bad request") (Some [mkChunk None []]) None) [] (mkChunk None []));
    [reflexivity|reflexivity|repeat constructor].
Defined.

(** Without results, [_raise_response_error] classifies the top-level
    [error], or the [reason] when the body is not JSON. A JSON body with
    neither raises [AttributeError] from [None.lower()]. *)
Theorem raise_response_error_no_results (r : Io.http_response) :
  (forall j, Io.json r = Some j -> default [] (Io.j_results j) = []) ->
  Io.raise_response_error r =
    match Io.json r with
    | None => Classify.raise_error (Io.reason r) None (Io.status_code r)
    | Some j =>
        match Io.j_error j with
        | Some e => Classify.raise_error e None (Io.status_code r)
        | None => AttributeError "'NoneType' object has no attribute 'lower'"
        end
    end.
Proof.
  intros H. unfold Io.raise_response_error.
  destruct (Io.json r) as [j|] eqn:Hj; [|done].
  rewrite (H j eq_refl). simpl. by destruct (Io.j_error j).
Qed.

(** A run of [raise_response_error_no_results]. *)
Lemma raise_response_error_no_results_witness :
  Io.raise_response_error resp_empty_json = AttributeError "'NoneType' object has no attribute 'lower'".
Proof.
  rewrite (raise_response_error_no_results resp_empty_json); [reflexivity|].
  intros j Hj. injection Hj as <-. reflexivity.
Defined.

(** When the top-level error is empty, the message of [InfluxDBIOError]
    is [<code>: <error>] with the error of the first failing result.
    A result after the first one adds [ query: <index>]. *)
Theorem io_error_first_chunk (r : Io.http_response) (j : Io.http_json)
    (cs : list chunk) (i : nat) (ch : chunk) (e : string) :
  Io.json r = Some j -> Io.opt_truthy (Io.j_error j) = false -> Io.j_results j = Some cs ->
  cs !! i = Some ch -> c_error ch = Some e -> e <> "" ->
  (forall k chk, (k < i)%nat -> cs !! k = Some chk -> Io.opt_truthy (c_error chk) = false) ->
  let msg := String.append e (if (i =? 0)%nat then "" else String.append " query: " (PyStr.of_nat i)) in
  Io.io_error r = (String.append (PyStr.of_Z (Io.status_code r)) (String.append ": " msg), Some msg).
Proof.
  intros Hj Ht Hr Hi He Hne Hprev msg. unfold Io.io_error. rewrite Hj, Ht, Hr. simpl.
  by rewrite (QueryFacts.io_error_loop_first i cs 0 (Io.j_error j) ch e).
Qed.

(** A run of [io_error_first_chunk]. *)
Lemma io_error_first_chunk_witness :
  Io.io_error (resp_chunk_error 400) =
    ("400: measurement not found: foo query: 1", Some "measurement not found: foo query: 1").
Proof.
  rewrite (io_error_first_chunk (resp_chunk_error 400)
              (Io.mkJson None (Some [mkChunk None []; mkChunk (Some "measurement not found: foo") []]) None)
              [mkChunk None []; mkChunk (Some "measurement not found: foo") []] 1
              (mkChunk (Some "measurement not found: foo") []) "measurement not found: foo");
    try reflexivity; [discriminate|].
  intros k chk Hk Hc. destruct k as [|k]; [injection Hc as <-; reflexivity|lia].
Defined.

(** On a 200 response that is not chunked, [query_indb] with
    [raise_error=True] raises the classified error of the first failing
    result, with index and code 200. With [raise_error=False] it returns
    the results, errors included. *)
Theorem query_indb_chunk_error (http_get : pval -> gmap string pval -> result Io.http_response)
    (raw_decode : string -> option (Io.http_json * nat)) (auth : gmap string pval)
    (query : string) (database : option string) (url : pval) (params : gmap string pval)
    (resp : Io.http_response) (j : Io.http_json) (cs : list chunk) (i : nat) (ch : chunk) (e : string) :
  Io.get_truthy auth "u" = true -> Io.get_truthy auth "p" = true ->
  Io.query_request auth query database false = Ok (url, params) ->
  http_get url params = Ok resp -> Io.status_code resp = 200%Z -> Io.json resp = Some j ->
  Io.j_results j = Some cs ->
  cs !! i = Some ch -> c_error ch = Some e -> e <> "" ->
  (forall k chk, (k < i)%nat -> cs !! k = Some chk -> Io.opt_truthy (c_error chk) = false) ->
  Io.query_indb http_get raw_decode auth query database false true =
    Err (Classify.raise_error e (Some i) 200) /\
  Io.query_indb http_get raw_decode auth query database false false = Ok (Io.QResults cs).
Proof.
  intros Hu Hp Hq Hg Hs Hj Hr Hi He Hne Hprev.
  rewrite !(QueryFacts.query_indb_200 _ _ _ _ _ _ url params resp j) by done.
  rewrite Hr. simpl. split; [|done].
  by rewrite (QueryFacts.query_errors_first i cs 0 ch e).
Qed.

(** A run of [query_indb_chunk_error]. *)
Lemma query_indb_chunk_error_witness :
  Io.query_indb (get_const (resp_chunk_error 200)) no_decode auth_db "SELECT * FROM foo" None false true =
    Err (Classify.raise_error "measurement not found: foo" (Some 1%nat) 200) /\
  Io.query_indb (get_const (resp_chunk_error 200)) no_decode auth_db "SELECT * FROM foo" None false false =
    Ok (Io.QResults [mkChunk None []; mkChunk (Some "measurement not found: foo") []]).
Proof.
  apply (query_indb_chunk_error (get_const (resp_chunk_error 200)) no_decode auth_db "SELECT * FROM foo" None
           (PStr "http://db:8086/query")
           (match Io.query_request auth_db "SELECT * FROM foo" None false with
            | Ok (_, p) => p | Err _ => ∅ end)
           (resp_chunk_error 200)
           (Io.mkJson None (Some [mkChunk None []; mkChunk (Some "measurement not found: foo") []]) None)
           [mkChunk None []; mkChunk (Some "measurement not found: foo") []] 1
           (mkChunk (Some "measurement not found: foo") []) "measurement not found: foo");
    try reflexivity; try discriminate; try (vm_compute; reflexivity).
  intros k chk Hk Hc. destruct k as [|k]; [injection Hc as <-; reflexivity|lia].
Defined.

(** [query_indb_df] with [chunked=True] never returns data: every
    DataFrame it returns is empty, because the chunk objects have no
    [series] entry. *)
Theorem query_indb_df_chunked_empty (parse_dt : string -> option Z)
    (json_loads : string -> option response)
    (http_get : pval -> gmap string pval -> result Io.http_response)
    (raw_decode : string -> option (Io.http_json * nat))
    (auth : gmap string pval) (query : string) (kw : qkwargs) (df : frame dix) :
  qk_chunked kw = true ->
  query_indb_df parse_dt json_loads http_get raw_decode auth query kw = Ok df ->
  df = empty_frame.
Proof.
  intros Hch. unfold query_indb_df.
  destruct (qk_others kw); [|discriminate].
  unfold Io.query_indb. rewrite Hch.
  destruct (negb (Io.get_truthy auth "u") || negb (Io.get_truthy auth "p")); [discriminate|].
  cbv [mbind result_bind bind].
  destruct (Io.query_request auth query (qk_database kw) true) as [[url params]|e]; [|discriminate].
  destruct (http_get url params) as [r|e]; [|discriminate].
  destruct (negb (Io.status_code r =? 200)%Z).
  - destruct (qk_raise_error kw); [discriminate|].
    unfold query_data.
    destruct ((Io.status_code r <? 400)%Z && negb (String.eqb (Io.content r) "")); [discriminate|].
    simpl. by intros [= <-].
  - destruct (existsb _ _); [discriminate|].
    cbv [fmap result_fmap].
    destruct (Io.loads_loop raw_decode _ _) as [os|e]; [|discriminate].
    simpl. unfold response_to_df. cbv [mbind result_bind bind].
    lazymatch goal with |- context [decode_chunks ?a ?b ?c ?d ?f] =>
      destruct (decode_chunks a b c d f) as [sdfs|e] eqn:Hd end; [|discriminate].
    apply QueryFacts.decode_chunks_no_series in Hd as ->; [|by apply Forall_map, Forall_true].
    simpl. by intros [= <-].
Qed.

(** A run of [query_indb_df_chunked_empty]. *)
Lemma query_indb_df_chunked_empty_witness :
  exists df, query_indb_df no_parse no_loads (get_const resp_ok_text) decode_all auth_db
               "SELECT * FROM cpu" (qkw true true) = Ok df /\ df = empty_frame.
Proof.
  exists empty_frame. split; [vm_compute; reflexivity|].
  apply (query_indb_df_chunked_empty no_parse no_loads (get_const resp_ok_text) decode_all auth_db
           "SELECT * FROM cpu" (qkw true true)); [reflexivity|vm_compute; reflexivity].
Defined.



(** On a response with status 400 or more, [query_indb_df] with
    [raise_error=False] returns an empty DataFrame. With [raise_error=True]
    it raises the error of [_raise_response_error]. *)
Theorem query_indb_df_http_error (parse_dt : string -> option Z)
    (json_loads : string -> option response)
    (http_get : pval -> gmap string pval -> result Io.http_response)
    (raw_decode : string -> option (Io.http_json * nat))
    (auth : gmap string pval) (query : string) (kw : qkwargs)
    (url : pval) (params : gmap string pval) (resp : Io.http_response) :
  qk_others kw = [] ->
  Io.get_truthy auth "u" = true -> Io.get_truthy auth "p" = true ->
  Io.query_request auth query (qk_database kw) (qk_chunked kw) = Ok (url, params) ->
  http_get url params = Ok resp -> (400 <= Io.status_code resp)%Z ->
  query_indb_df parse_dt json_loads http_get raw_decode auth query kw =
    if qk_raise_error kw then Err (Io.raise_response_error resp)
    else Ok empty_frame.
Proof.
  intros Ho Hu Hp Hq Hg Hs. unfold query_indb_df. rewrite Ho.
  unfold Io.query_indb. rewrite Hu, Hp, Hq. cbv [mbind result_bind bind]. simpl.
  rewrite Hg. simpl.
  rewrite (proj2 (Z.eqb_neq _ _)) by lia. simpl.
  destruct (qk_raise_error kw); [done|]. simpl.
  unfold query_data. rewrite (proj2 (Z.ltb_ge _ _)) by lia. done.
Qed.

(** A run of [query_indb_df_http_error]. *)
Lemma query_indb_df_http_error_witness :
  query_indb_df no_parse no_loads (get_const resp_no_chunk_error) no_decode auth_db
    "SELECT * FROM cpu" (qkw false false) = Ok empty_frame.
Proof.
  rewrite (query_indb_df_http_error no_parse no_loads (get_const resp_no_chunk_error) no_decode auth_db
           "SELECT * FROM cpu" (qkw false false) (PStr "http://db:8086/query")
           (match Io.query_request auth_db "SELECT * FROM cpu" None false with
            | Ok (_, p) => p | Err _ => ∅ end) resp_no_chunk_error);
    [reflexivity|reflexivity|reflexivity|reflexivity|vm_compute; reflexivity|reflexivity|].
  simpl. lia.
Defined.

(** [record_indb] given any keyword other than [compress] and
    [raise_error] always fails, whatever the server. The keyword is
    passed on to [push_indb], which raises [TypeError], unless the
    conversion failed first. *)
Theorem record_indb_conversion_kwargs (parse_dt : string -> option Z) (fmt_ns : Z -> string)
    (gzip : string -> string) (auth : gmap string pval) (data : rdata) (kw : rkwargs) :
  rk_names kw <> [] ->
  exists e, forall http_post,
    fst (record_indb parse_dt fmt_ns http_post gzip auth data kw) = Err e.
Proof.
  intros Hn. destruct (rk_names kw) as [|n ns] eqn:Hk; [done|].
  set (te := TypeError (String.append "push_indb() got an unexpected keyword argument '"
                          (String.append n "'"))).
  assert (Hp : forall http_post body, push_kw http_post gzip auth body kw = Err te)
    by (intros; unfold push_kw; by rewrite Hk).
  destruct data as [df|l|b|d|x]; simpl.
  - destruct (fst (df_to_indb parse_dt fmt_ns (rk_opts kw) df)) as [b|e]; simpl.
    + exists te. intros. apply Hp.
    + by exists e.
  - destruct (list_to_indb parse_dt fmt_ns (rk_opts kw) l) as [b|e]; simpl.
    + exists te. intros. apply Hp.
    + by exists e.
  - exists te. intros. apply Hp.
  - destruct (dict_to_indb parse_dt fmt_ns (rk_opts kw) d) as [b|e]; simpl.
    + exists te. intros. apply Hp.
    + by exists e.
  - exists te. intros. apply Hp.
Qed.

(** A run of [record_indb_conversion_kwargs]. *)
Lemma record_indb_conversion_kwargs_witness :
  exists e, forall http_post,
    fst (record_indb no_parse no_fmt http_post no_gzip auth_db (RFrame df_private_col) rkw_labels) = Err e.
Proof. apply record_indb_conversion_kwargs. discriminate. Defined.

(** [record_indb] on a dict given [database] raises [TypeError] and
    sends nothing: the keyword is passed on to [push_indb], which does not
    take it. Before that, [_re_apply] has written the database into the
    caller's dict and left its keys other than [database] and
    [retentionPolicy] unchanged. *)
Theorem record_indb_dict_database (parse_dt : string -> option Z) (fmt_ns : Z -> string)
    (http_post : Io.post_request -> result Io.http_response) (gzip : string -> string)
    (auth : gmap string pval) (d : record) (kw : rkwargs) (db : string) (b : batch) :
  o_database (rk_opts kw) = Some db -> db <> "" ->
  dict_to_indb parse_dt fmt_ns (rk_opts kw) d = Ok b ->
  (exists msg, fst (record_indb parse_dt fmt_ns http_post gzip auth (RRecord d) kw) = Err (TypeError msg)) /\
  exists d', snd (record_indb parse_dt fmt_ns http_post gzip auth (RRecord d) kw) = RRecord d' /\
    rec_get d' "database" = Some (Some (VStr db)) /\
    (forall k, k <> "database" -> k <> "retentionPolicy" -> rec_get d' k = rec_get d k).
Proof.
  intros Hdb Hne Hb. simpl. rewrite Hb. split.
  - unfold push_kw, rk_names.
    destruct (rk_conv kw) as [|k ks] eqn:Hk.
    + rewrite (RecordFacts.rk_opts_nil kw Hk) in Hdb. discriminate.
    + simpl. eexists. reflexivity.
  - eexists; split; [reflexivity|].
    unfold re_apply_record. rewrite Hdb.
    assert (Ht : Io.opt_truthy (Some db) = true).
    { simpl. destruct (String.eqb db "") eqn:E; [apply String.eqb_eq in E; congruence|done]. }
    rewrite Ht.
    split.
    + destruct (o_retentionPolicy (rk_opts kw)) as [rp|]; [destruct (Io.opt_truthy (Some rp))|];
        rewrite ?RecordFacts.rec_get_set_ne by done; apply RecordFacts.rec_get_set_eq.
    + intros k H1 H2.
      destruct (o_retentionPolicy (rk_opts kw)) as [rp|]; [destruct (Io.opt_truthy (Some rp))|];
        by rewrite ?RecordFacts.rec_get_set_ne by congruence.
Qed.

(** A run of [record_indb_dict_database]: [record_indb(auth, {'x': 1},
    database='db1')]. *)
Lemma record_indb_dict_database_witness :
  (exists msg, fst (record_indb no_parse no_fmt (post_const resp_ok_text) no_gzip auth_db (RRecord rec_x)
                      rkw_database) = Err (TypeError msg)) /\
  exists d', snd (record_indb no_parse no_fmt (post_const resp_ok_text) no_gzip auth_db (RRecord rec_x) rkw_database) =
    RRecord d' /\ rec_get d' "database" = Some (Some (VStr "db1")).
Proof.
  destruct (record_indb_dict_database no_parse no_fmt (post_const resp_ok_text) no_gzip auth_db rec_x rkw_database "db1"
              (match dict_to_indb no_parse no_fmt (rk_opts rkw_database) rec_x with
               | Ok b => b | Err _ => mkBatch [] "ms" None None None None end))
    as [Hm (d' & H1 & H2 & _)]; [reflexivity|discriminate|vm_compute; reflexivity|].
  split; [exact Hm|]. exists d'. split; [exact H1|exact H2].
Defined.

(** [list_to_indb] of an empty list raises [InfluxDBEmpty]. Every point
    it writes is a non-null value of one of the dicts, named after its
    key. *)
Theorem list_to_indb_points (parse_dt : string -> option Z) (fmt_ns : Z -> string) (o : options) :
  list_to_indb parse_dt fmt_ns o [] = Err (InfluxDBEmpty "Empty sensor data") /\
  (forall data b p, list_to_indb parse_dt fmt_ns o data = Ok b -> p ∈ b_points b ->
   exists d c v, d ∈ data /\ rec_get d c = Some (Some v) /\
     p_name p = String.append (norm_ns (o_ns o)) (column_name o c) /\
     p_fields p = {[ "value" := v ]}).
Proof.
  split; [done|].
  intros data b p Hok Hp.
  destruct (EncodeFacts.points_from_cells parse_dt fmt_ns o (frame_of_records data) b p
              (RecordFacts.frame_of_records_wf data) Hok Hp)
    as (r & c & v & Hr & Hcv & _ & _ & _ & Hname & Hfields).
  destruct (RecordFacts.frame_of_records_row data r Hr) as (d & Hd & Hrow).
  rewrite Hrow in Hcv. apply RecordFacts.items_map_in in Hcv.
  exists d, c, v. split; [done|]. split; [|done].
  destruct (rec_get d c) as [x|]; simpl in Hcv; [by subst|discriminate].
Qed.

(** In [response_to_df], [_get_col] strips the longest namespace that
    prefixes the column, so the order of [ns], [ns1], ... does not
    matter. *)
Theorem get_col_longest_any_order (all_ns all_ns' : list string) (col : string) :
  all_ns ≡ₚ all_ns' ->
  get_col all_ns col = get_col all_ns' col /\
  (forall ns, ns ∈ all_ns -> ns <> "" -> PyStr.startswith col ns = true ->
   exists ns', ns' ∈ all_ns /\ ns' <> "" /\ PyStr.startswith col ns' = true /\
     (String.length ns <= String.length ns')%nat /\
     get_col all_ns col = PyStr.drop (String.length ns') col).
Proof.
  intros Hp. split.
  - rewrite !GetColFacts.get_col_spec. f_equal. by apply GetColFacts.longest_perm.
  - intros ns Hin Hne Hs.
    pose proof (GetColFacts.longest_ge col all_ns ns Hin Hne Hs) as Hge.
    destruct (GetColFacts.longest_in col all_ns) as [H0|(ns' & Hin' & Hne' & Hs' & Hl)].
    + cbv zeta in H0. destruct ns; [done|simpl in Hge; lia].
    + exists ns'. repeat split; try done; [lia|].
      rewrite GetColFacts.get_col_spec, Hl. done.
Qed.

(** A run of [get_col_longest_any_order]. *)
Lemma get_col_longest_any_order_witness :
  get_col ["a."; "a.b."] "a.b.x" = get_col ["a.b."; "a."] "a.b.x" /\ get_col ["a."; "a.b."] "a.b.x" = "x".
Proof.
  split; [|reflexivity].
  destruct (get_col_longest_any_order ["a."; "a.b."] ["a.b."; "a."] "a.b.x") as [H _];
    [constructor|exact H].
Defined.
